(** * IntentUI: the V2 density engine and its session tracker

    A shallow embedding of

    - [lib/v2/types.ts]            (the shared data types and thresholds),
    - [lib/v2/engine.ts]           ([assessIntent] and its helpers),
    - [context/DensityContext.tsx] (the provider holding the session state),
    - [lib/intent-classifier.ts]   (the older classifier, [classifyIntent]),
    - the demo prompts of [components/ZeroUIInterface.tsx] and the
      [extractFromText] of [components/tambo/expense-input.tsx],

    together with the properties the specification states about them.

    Conventions of the embedding.

    - A JavaScript string is a [string]: a sequence of code units, taken in
      the Latin-1 range (one [ascii] each).  [toLowerCase] and [trim] are the
      restrictions of the JavaScript functions to that range.
    - A JavaScript number that carries a score is a binary64 [float]; the
      arithmetic and the comparisons are the IEEE 754 ones the kernel
      evaluates, so [1.0 - 0.4 - 0.2] here is the value the program computes.
    - A JavaScript number that counts events (the three counters of the
      profile) is a [Z]; the counters start at [0] and move by [+ 1], far
      from the range where binary64 addition stops being exact.
    - The React state of the provider is a record, and each action is a
      function from the committed state to the next one (every action runs
      against the latest render, one after the other).  [console.log] is
      not modelled. *)

From Stdlib Require Import ZArith NArith Bool List String Ascii Lia.
From Stdlib Require Import Floats.PrimFloat Floats.FloatOps Floats.SpecFloat.
From Stdlib Require Import Floats.FloatClass.
From Stdlib Require Import DecimalString.
Import ListNotations.

#[local] Set Warnings "-inexact-float".
#[local] Open Scope string_scope.
#[local] Open Scope bool_scope.

(* ===================================================================== *)
(** ** JavaScript primitives used by the engine *)
(* ===================================================================== *)

Module JS.

(** [String.prototype.toLowerCase] on one Latin-1 code unit: [A-Z] and the
    accented capitals U+00C0..U+00DE (U+00D7, the multiplication sign,
    apart) move up by 32; every other unit is its own lower case. *)
Definition lowerChar (c : ascii) : ascii :=
  let n := N_of_ascii c in
  if ((65 <=? n) && (n <=? 90)
      || (192 <=? n) && (n <=? 214)
      || (216 <=? n) && (n <=? 222))%N
  then ascii_of_N (n + 32)
  else c.

Fixpoint toLowerCase (s : string) : string :=
  match s with
  | EmptyString => EmptyString
  | String c t => String (lowerChar c) (toLowerCase t)
  end.

(** WhiteSpace and LineTerminator of ECMAScript in the Latin-1 range:
    TAB, LF, VT, FF, CR, SP and NBSP. *)
Definition isWhiteSpace (c : ascii) : bool :=
  let n := N_of_ascii c in
  ((9 <=? n) && (n <=? 13) || (n =? 32) || (n =? 160))%N.

Fixpoint trimStart (s : string) : string :=
  match s with
  | EmptyString => EmptyString
  | String c t => if isWhiteSpace c then trimStart t else s
  end.

Fixpoint trimEnd (s : string) : string :=
  match s with
  | EmptyString => EmptyString
  | String c t =>
      match trimEnd t with
      | EmptyString => if isWhiteSpace c then EmptyString else String c EmptyString
      | t' => String c t'
      end
  end.

(** [String.prototype.trim]. *)
Definition trim (s : string) : string := trimEnd (trimStart s).

Fixpoint startsWith (k s : string) : bool :=
  match k, s with
  | EmptyString, _ => true
  | String a k', String b s' => Ascii.eqb a b && startsWith k' s'
  | String _ _, EmptyString => false
  end.

(** [text.includes(k)]: [k] occurs in [text] as a contiguous substring. *)
Fixpoint includes (k text : string) : bool :=
  startsWith k text
  || match text with
     | EmptyString => false
     | String _ t => includes k t
     end.

(** [ks.some(s => text.includes(s))]. *)
Definition some (ks : list string) (text : string) : bool :=
  existsb (fun s => includes s text) ks.

Definition isDigit (c : ascii) : bool :=
  let n := N_of_ascii c in ((48 <=? n) && (n <=? 57))%N.

(** [/\d+/.test(text)]: some run of one or more decimal digits occurs. *)
Fixpoint testDigits (text : string) : bool :=
  match text with
  | EmptyString => false
  | String c t => isDigit c || testDigits t
  end.

#[local] Open Scope float_scope.

Definition isNegZero (x : float) : bool :=
  match classify x with
  | NZero => true
  | _ => false
  end.

(** [Math.max] and [Math.min] on two arguments: NaN is contagious and
    [+0] counts as larger than [-0]. *)
Definition Math_max (a b : float) : float :=
  if is_nan a || is_nan b then nan
  else if a <? b then b
  else if b <? a then a
  else if isNegZero a then b else a.

Definition Math_min (a b : float) : float :=
  if is_nan a || is_nan b then nan
  else if a <? b then a
  else if b <? a then b
  else if isNegZero a then a else b.

#[local] Close Scope float_scope.

Definition digitChar (d : Z) : ascii := ascii_of_N (Z.to_N (48 + d)).

(** The integer [n] for which [n / 100 - m * 2^e] is closest to zero, the
    larger one on a tie. *)
Definition nearestHundredths (m : positive) (e : Z) : Z :=
  if (0 <=? e)%Z then (100 * Z.pos m * 2 ^ e)%Z
  else ((200 * Z.pos m + 2 ^ (- e)) / 2 ^ (1 - e))%Z.

Definition fixedDigits (n : Z) : string :=
  NilZero.string_of_uint (N.to_uint (Z.to_N (n / 100)))
  ++ "."
  ++ String (digitChar ((n mod 100) / 10))
       (String (digitChar (n mod 10)) EmptyString).

(** [x.toFixed(2)] for a magnitude below [10^21]; above it JavaScript
    switches to the exponent notation of [Number::toString], which the
    engine never reaches: it only prints scores clamped to [[0,1]]
    ([computeConfidence_range]). *)
Definition toFixed2 (x : float) : string :=
  match Prim2SF x with
  | S754_nan => "NaN"
  | S754_infinity s => if s then "-Infinity" else "Infinity"
  | S754_zero _ => "0.00"
  | S754_finite s m e =>
      (if s then "-" else EmptyString) ++ fixedDigits (nearestHundredths m e)
  end.

End JS.

(* ===================================================================== *)
(** ** lib/v2/types.ts *)
(* ===================================================================== *)

Module Types.

Inductive UIDensity := MINIMAL | STANDARD | EXPANDED.

Inductive UrgencyLevel := LOW | NORMAL | HIGH.

(** The [type] field of a result is a string in the source; the engine only
    ever stores one of these three. *)
Inductive IntentType := ACTION | ANALYTICAL | REFLECTIVE.

Definition IntentType_eqb (a b : IntentType) : bool :=
  match a, b with
  | ACTION, ACTION | ANALYTICAL, ANALYTICAL | REFLECTIVE, REFLECTIVE => true
  | _, _ => false
  end.

Definition UrgencyLevel_eqb (a b : UrgencyLevel) : bool :=
  match a, b with
  | LOW, LOW | NORMAL, NORMAL | HIGH, HIGH => true
  | _, _ => false
  end.

Definition UIDensity_toString (d : UIDensity) : string :=
  match d with
  | MINIMAL => "MINIMAL"
  | STANDARD => "STANDARD"
  | EXPANDED => "EXPANDED"
  end.

Module CONFIDENCE_THRESHOLDS.

Definition minimal : float := 0.8%float.

Definition expanded : float := 0.75%float.

(** The text of [`${CONFIDENCE_THRESHOLDS.expanded}`]. *)
Definition expanded_toString : string := "0.75".

End CONFIDENCE_THRESHOLDS.

Record UserConfidenceProfile := {
  interactionsThisSession : Z;
  successfulActions : Z;
  backspaceCount : Z;
  lastIntentChanged : bool
}.

Record IntentResult := {
  type : IntentType;
  description : string;
  confidence : float;
  urgency : UrgencyLevel;
  density : UIDensity;
  reasoning : string
}.

Record UIContext := {
  currentDensity : UIDensity;
  userProfile : UserConfidenceProfile;
  history : list IntentResult
}.

End Types.

(* ===================================================================== *)
(** ** lib/v2/engine.ts *)
(* ===================================================================== *)

Module Engine.
Import JS Types.

Definition UNCERTAINTY_SIGNALS : list string :=
  ["think"; "maybe"; "probably"; "not sure"; "guess"; "ish";
   "forgot"; "don't remember"; "unsure"; "might"].

Definition REFLECTIVE_SIGNALS : list string :=
  ["why"; "help"; "understand"; "insight"; "tips"; "suggest";
   "how to"; "what should"; "broke"; "struggling"].

Definition URGENCY_HIGH_SIGNALS : list string :=
  ["now"; "asap"; "immediately"; "urgent"; "emergency"; "fast"; "quick"].

Definition ANALYTICAL_SIGNALS : list string :=
  ["show"; "graph"; "chart"; "compare"; "analyze"; "list"; "history"; "trend"].

Definition detectIntentType (text : string) : IntentType :=
  if some REFLECTIVE_SIGNALS text then REFLECTIVE
  else if some ANALYTICAL_SIGNALS text then ANALYTICAL
  else ACTION.

Definition detectUrgency (text : string) : UrgencyLevel :=
  if includes "!" text then HIGH
  else if some URGENCY_HIGH_SIGNALS text then HIGH
  else NORMAL.

#[local] Open Scope float_scope.

Definition computeConfidence (text : string) (context : UIContext) : float :=
  let score := 1.0 in
  let score := if some UNCERTAINTY_SIGNALS text then score - 0.4 else score in
  let score := if some REFLECTIVE_SIGNALS text then score - 0.2 else score in
  let score :=
    if (5 <? backspaceCount (userProfile context))%Z then score - 0.1 else score in
  let score :=
    if lastIntentChanged (userProfile context) then score - 0.1 else score in
  let score := if testDigits text then score + 0.1 else score in
  Math_min (Math_max score 0) 1.

(** The source returns the object [{ density, reasoning }]. *)
Definition resolveDensity (type : IntentType) (confidence : float)
    (urgency : UrgencyLevel) (context : UIContext) : UIDensity * string :=
  (* Rule 1: Reflection always gets Expanded *)
  if IntentType_eqb type REFLECTIVE then
    (EXPANDED, "User is seeking guidance (Reflective Intent)"%string)
  (* Rule 2: Low Confidence -> Expanded *)
  else if confidence <? CONFIDENCE_THRESHOLDS.expanded then
    (EXPANDED,
     ("Confidence (" ++ toFixed2 confidence ++ ") is below threshold ("
        ++ CONFIDENCE_THRESHOLDS.expanded_toString ++ ")")%string)
  (* Rule 3: High Urgency -> Minimal *)
  else if UrgencyLevel_eqb urgency HIGH then
    (MINIMAL, "High urgency detected - prioritizing speed"%string)
  (* Rule 4: High Confidence Actions -> Minimal *)
  else if IntentType_eqb type ACTION
          && (CONFIDENCE_THRESHOLDS.minimal <=? confidence) then
    (MINIMAL,
     ("Confidence (" ++ toFixed2 confidence ++ ") is high for Action")%string)
  (* Default: Standard *)
  else (STANDARD, "Default density for balanced interaction"%string).

#[local] Close Scope float_scope.

(** [input.toLowerCase().trim()], the first line of [assessIntent]. *)
Definition normalize (input : string) : string := trim (toLowerCase input).

Definition assessIntent (input : string) (context : UIContext) : IntentResult :=
  let text := normalize input in
  let intentType := detectIntentType text in
  let urgency := detectUrgency text in
  let confidence := computeConfidence text context in
  let '(density, reasoning) := resolveDensity intentType confidence urgency context in
  {| type := intentType;
     description := input;
     confidence := confidence;
     urgency := urgency;
     density := density;
     reasoning := reasoning |}.

End Engine.

(* ===================================================================== *)
(** ** lib/intent-classifier.ts: intent detection of the older classifier *)
(* ===================================================================== *)

Module Legacy.
Import JS Types.

Definition ACTION_SIGNALS : list string :=
  ["add"; "create"; "save"; "delete"; "remove"; "export"; "share"; "log"; "record"].

Definition ANALYTICAL_SIGNALS : list string :=
  ["show"; "display"; "list"; "compare"; "analyze"; "breakdown"; "chart";
   "graph"; "visualize"; "trend"; "history"; "recent"; "spending"].

Definition REFLECTIVE_SIGNALS : list string :=
  ["why"; "help"; "understand"; "insight"; "advice"; "tips"; "suggest";
   "how do i"; "what should"; "improve"; "better"; "broke"; "too much"].

Definition detectIntentType (input : string) : IntentType :=
  if some REFLECTIVE_SIGNALS input then REFLECTIVE
  else if some ACTION_SIGNALS input then ACTION
  else if some ANALYTICAL_SIGNALS input then ANALYTICAL
  else ACTION.

End Legacy.

(* ===================================================================== *)
(** ** context/DensityContext.tsx *)
(* ===================================================================== *)

Module DensityContext.
Import JS Types.

Definition INITIAL_PROFILE : UserConfidenceProfile :=
  {| interactionsThisSession := 0;
     successfulActions := 0;
     backspaceCount := 0;
     lastIntentChanged := false |}.

(** The five [useState] cells of [DensityProvider]. *)
Record State := {
  density : UIDensity;
  reasoning : string;
  lastIntent : option IntentResult;
  userProfile : UserConfidenceProfile;
  manualOverride : option UIDensity
}.

Definition initialState : State :=
  {| density := STANDARD;
     reasoning := "Initial state";
     lastIntent := None;
     userProfile := INITIAL_PROFILE;
     manualOverride := None |}.

(** [{ ...userProfile, interactionsThisSession: userProfile.interactionsThisSession + 1 }] *)
Definition newProfile (p : UserConfidenceProfile) : UserConfidenceProfile :=
  {| interactionsThisSession := interactionsThisSession p + 1;
     successfulActions := successfulActions p;
     backspaceCount := backspaceCount p;
     lastIntentChanged := lastIntentChanged p |}.

(** The context [processInput] hands to the engine. *)
Definition buildContext (s : State) : UIContext :=
  {| currentDensity := density s;
     Types.userProfile := newProfile (userProfile s);
     history := match lastIntent s with
                | Some r => [r]
                | None => []
                end |}.

(** Override decay: the override is dropped when there is a previous
    result and its type differs from the new one. *)
Definition activeOverride (s : State) (result : IntentResult) : option UIDensity :=
  match manualOverride s with
  | Some d =>
      match lastIntent s with
      | Some last =>
          if negb (IntentType_eqb (type result) (type last)) then None else Some d
      | None => Some d
      end
  | None => None
  end.

Definition processInput (text : string) (s : State) : State :=
  let result := Engine.assessIntent text (buildContext s) in
  let active := activeOverride s result in
  {| density := match active with
                | Some d => d
                | None => Types.density result
                end;
     reasoning := match active with
                  | Some d =>
                      "Manual Override Active (User preferred "
                        ++ UIDensity_toString d ++ ")"
                  | None => Types.reasoning result
                  end;
     lastIntent := Some result;
     userProfile := newProfile (userProfile s);
     manualOverride := active |}.

Definition handleManualOverride (newDensity : UIDensity) (s : State) : State :=
  {| density := newDensity;
     reasoning := "User manually overrode density";
     lastIntent := lastIntent s;
     userProfile := userProfile s;
     manualOverride := Some newDensity |}.

Definition recordSuccess (s : State) : State :=
  {| density := density s;
     reasoning := reasoning s;
     lastIntent := lastIntent s;
     userProfile :=
       {| interactionsThisSession := interactionsThisSession (userProfile s);
          successfulActions := successfulActions (userProfile s) + 1;
          backspaceCount := backspaceCount (userProfile s);
          lastIntentChanged := lastIntentChanged (userProfile s) |};
     manualOverride := match manualOverride s with
                       | Some _ => None
                       | None => manualOverride s
                       end |}.

(** The three actions the provider exposes. *)
Inductive Action :=
| ProcessInput (text : string)
| SetManualOverride (d : UIDensity)
| RecordSuccess.

Definition step (a : Action) (s : State) : State :=
  match a with
  | ProcessInput text => processInput text s
  | SetManualOverride d => handleManualOverride d s
  | RecordSuccess => recordSuccess s
  end.

(** Runs the actions in order, the head of the list first. *)
Definition run (acts : list Action) (s : State) : State :=
  fold_left (fun st a => step a st) acts s.

(** The states a session can be in. *)
Inductive reachable : State -> Prop :=
| reachable_init : reachable initialState
| reachable_step a s : reachable s -> reachable (step a s).

(** What the provider shows to its consumers: [currentDensity], [why],
    [lastIntent] and [isOverrideActive]. *)
Definition currentDensity (s : State) : UIDensity := density s.

Definition why (s : State) : string := reasoning s.

Definition isOverrideActive (s : State) : bool :=
  match manualOverride s with
  | Some _ => true
  | None => false
  end.

End DensityContext.

(* ===================================================================== *)
(** ** The context of the engine's test runner *)
(* ===================================================================== *)

Module EngineTest.
Import Types.

Definition mockContext : UIContext :=
  {| currentDensity := STANDARD;
     history := [];
     userProfile :=
       {| interactionsThisSession := 5;
          successfulActions := 2;
          backspaceCount := 0;
          lastIntentChanged := false |} |}.

(** The same context after six corrections of the input. *)
Definition hesitantContext : UIContext :=
  {| currentDensity := STANDARD;
     history := [];
     userProfile :=
       {| interactionsThisSession := 5;
          successfulActions := 2;
          backspaceCount := 6;
          lastIntentChanged := false |} |}.

End EngineTest.

(* ===================================================================== *)
(** ** Vocabulary of the properties *)
(* ===================================================================== *)

Module Vocabulary.
Import JS Types.

(** [k] occurs in [input] when letter case is ignored: the engine looks
    for its keywords in the lower-cased input. *)
Definition mentions (k input : string) : bool := includes k (toLowerCase input).

Definition firstNonWs (k : string) : bool :=
  match k with
  | EmptyString => false
  | String c _ => negb (isWhiteSpace c)
  end.

Fixpoint lastNonWs (k : string) : bool :=
  match k with
  | EmptyString => false
  | String c EmptyString => negb (isWhiteSpace c)
  | String _ t => lastNonWs t
  end.

(** A keyword the normalisation cannot damage: it is its own lower case
    and neither starts nor ends with white space. *)
Definition signalOk (k : string) : bool :=
  String.eqb (toLowerCase k) k && firstNonWs k && lastNonWs k.

(** Every keyword the engine is configured with, and the exclamation mark. *)
Definition allSignals : list string :=
  "!" :: Engine.UNCERTAINTY_SIGNALS ++ Engine.REFLECTIVE_SIGNALS
      ++ Engine.URGENCY_HIGH_SIGNALS ++ Engine.ANALYTICAL_SIGNALS.

(** Text that carries no linguistic signal at all: no keyword of any list
    and no exclamation mark.  The empty string is such a text. *)
Definition unrecognized (input : string) : bool :=
  negb (existsb (fun k => mentions k input) allSignals).

Definition disjoint (xs ys : list string) : bool :=
  forallb (fun x => negb (existsb (String.eqb x) ys)) xs.

(** The density the tracker is expected to show: the override when one is
    active, otherwise the density the engine computed for the latest input
    ([None] before the first input). *)
Definition expectedDensity (s : DensityContext.State) : option UIDensity :=
  match DensityContext.manualOverride s with
  | Some d => Some d
  | None => option_map Types.density (DensityContext.lastIntent s)
  end.

Definition densityInvariant (s : DensityContext.State) : Prop :=
  match expectedDensity s with
  | Some d => DensityContext.currentDensity s = d
  | None => True
  end.

End Vocabulary.

(* ===================================================================== *)
(** ** lib/intent-classifier.ts: the rest of the older classifier *)
(* ===================================================================== *)

Module LegacyClassifier.
Import JS Types Legacy.

Inductive ConfidenceLevel := CONFIDENT | UNCERTAIN | EMOTIONAL.

Record IntentClassification := {
  intentType : IntentType;
  confidenceLevel : ConfidenceLevel;
  uiDensity : UIDensity
}.

Definition UNCERTAINTY_SIGNALS : list string :=
  ["i think"; "maybe"; "probably"; "not sure"; "i guess"; "something like";
   "around"; "approximately"; "ish"; "don't remember"; "forgot"].

Definition EMOTIONAL_SIGNALS : list string :=
  ["always"; "never"; "hate"; "love"; "stressed"; "worried"; "anxious";
   "broke"; "struggling"; "frustrated"; "confused"; "overwhelmed"; "bad"].

(** The pieces of the pattern [/\$?\d+(\.\d{1,2})?/], each taking the
    matcher [k] of what follows it; alternatives are tried in the order
    the regular expression engine tries them. *)
Definition optional (r : (string -> bool) -> string -> bool)
    (k : string -> bool) (s : string) : bool :=
  r k s || k s.

Definition dollar (k : string -> bool) (s : string) : bool :=
  match s with
  | String c t => Ascii.eqb c "$" && k t
  | EmptyString => false
  end.

Fixpoint digitsPlus (k : string -> bool) (s : string) : bool :=
  match s with
  | String c t => isDigit c && (digitsPlus k t || k t)
  | EmptyString => false
  end.

Definition fraction12 (k : string -> bool) (s : string) : bool :=
  match s with
  | String c (String d1 t) =>
      Ascii.eqb c "." && isDigit d1
      && (match t with
          | String d2 t' => isDigit d2 && k t'
          | EmptyString => false
          end
          || k t)
  | _ => false
  end.

Definition numberPattern (s : string) : bool :=
  optional dollar (digitsPlus (optional fraction12 (fun _ => true))) s.

(** [re.test(text)] for a pattern without anchors: a match may start at
    any position. *)
Fixpoint test (p : string -> bool) (text : string) : bool :=
  p text
  || match text with
     | EmptyString => false
     | String _ t => test p t
     end.

Definition detectConfidenceLevel (input : string) : ConfidenceLevel :=
  if some EMOTIONAL_SIGNALS input then EMOTIONAL
  else if some UNCERTAINTY_SIGNALS input then UNCERTAIN
  else if test numberPattern input then CONFIDENT
  else if (String.length input <? 30)%nat then CONFIDENT
  else UNCERTAIN.

Definition ConfidenceLevel_eqb (a b : ConfidenceLevel) : bool :=
  match a, b with
  | CONFIDENT, CONFIDENT | UNCERTAIN, UNCERTAIN | EMOTIONAL, EMOTIONAL => true
  | _, _ => false
  end.

Definition mapToUIDensity (intentType : IntentType)
    (confidenceLevel : ConfidenceLevel) : UIDensity :=
  (* EXPANDED: Always for uncertain or emotional users *)
  if ConfidenceLevel_eqb confidenceLevel UNCERTAIN
     || ConfidenceLevel_eqb confidenceLevel EMOTIONAL then EXPANDED
  (* MINIMAL: Confident actions *)
  else if IntentType_eqb intentType ACTION
          && ConfidenceLevel_eqb confidenceLevel CONFIDENT then MINIMAL
  (* STANDARD: Analytical queries (confident) *)
  else if IntentType_eqb intentType ANALYTICAL then STANDARD
  (* EXPANDED: Reflective always gets more support *)
  else if IntentType_eqb intentType REFLECTIVE then EXPANDED
  (* Default to standard *)
  else STANDARD.

Definition classifyIntent (userInput : string) : IntentClassification :=
  let input := trim (toLowerCase userInput) in
  let intentType := detectIntentType input in
  let confidenceLevel := detectConfidenceLevel input in
  let uiDensity := mapToUIDensity intentType confidenceLevel in
  {| intentType := intentType;
     confidenceLevel := confidenceLevel;
     uiDensity := uiDensity |}.

End LegacyClassifier.

(* ===================================================================== *)
(** ** components/ZeroUIInterface.tsx: the locked demo prompts *)
(* ===================================================================== *)

Module ZeroUI.
Import Types.

Definition DEMO_PROMPTS : list (string * UIDensity) :=
  [("Add 500 for groceries", MINIMAL);
   ("Show my spending breakdown", STANDARD);
   ("Compare food vs transport", STANDARD);
   ("I think I'm overspending", EXPANDED);
   ("Export this", MINIMAL)].

End ZeroUI.

(* ===================================================================== *)
(** ** components/tambo/expense-input.tsx: [extractFromText] *)
(* ===================================================================== *)

Module ExpenseInput.
Import JS.

(** The entries of [categoryKeywords] in the order [Object.entries]
    yields them, the order in which they are written. *)
Definition categoryKeywords : list (string * list string) :=
  [("Food", ["food"; "groceries"; "grocery"; "lunch"; "dinner"; "breakfast";
             "coffee"; "restaurant"; "eat"; "meal"]);
   ("Transport", ["uber"; "taxi"; "gas"; "fuel"; "metro"; "bus"; "transport";
                  "ride"; "lyft"; "train"]);
   ("Shopping", ["amazon"; "shopping"; "clothes"; "shoes"; "buy"; "purchase";
                 "store"]);
   ("Bills", ["rent"; "electricity"; "wifi"; "internet"; "insurance";
              "utility"; "bill"; "phone"]);
   ("Entertainment", ["movie"; "netflix"; "games"; "concert"; "spotify";
                      "entertainment"; "fun"]);
   ("Health", ["doctor"; "medicine"; "gym"; "pharmacy"; "health"; "medical";
               "hospital"])].

(** The [for ... of] loop of [extractFromText]: the first entry one of
    whose keywords occurs in the lower-cased text. *)
Fixpoint firstCategory (entries : list (string * list string))
    (lowerText : string) : option string :=
  match entries with
  | [] => None
  | (cat, keywords) :: rest =>
      if some keywords lowerText then Some cat else firstCategory rest lowerText
  end.

(** The [category] field of [extractFromText(text)]. *)
Definition detectedCategory (text : string) : option string :=
  firstCategory categoryKeywords (toLowerCase text).

(** The longest run of digits at the head of [s]. *)
Fixpoint takeDigits (s : string) : string :=
  match s with
  | String c t => if isDigit c then String c (takeDigits t) else EmptyString
  | EmptyString => EmptyString
  end.

Fixpoint dropDigits (s : string) : string :=
  match s with
  | String c t => if isDigit c then dropDigits t else s
  | EmptyString => EmptyString
  end.

(** The match of [/\d+(\.\d+)?/] that starts at the head of [s]: the
    longest run of digits and, when a dot and a digit follow it, the dot
    and the longest run of digits after it. *)
Definition matchAmountAt (s : string) : option string :=
  match takeDigits s with
  | EmptyString => None
  | ds =>
      match dropDigits s with
      | String c r =>
          if Ascii.eqb c "."
          then match takeDigits r with
               | EmptyString => Some ds
               | fs => Some (ds ++ "." ++ fs)
               end
          else Some ds
      | EmptyString => Some ds
      end
  end.

(** [text.match(/\d+(\.\d+)?/)[0]]: the leftmost match, [None] for the
    [null] of a text without a match.  [extractFromText] returns the
    [parseFloat] of this lexeme as its [amount]. *)
Fixpoint amountMatch (text : string) : option string :=
  match matchAmountAt text with
  | Some m => Some m
  | None =>
      match text with
      | String _ t => amountMatch t
      | EmptyString => None
      end
  end.

End ExpenseInput.

(* ===================================================================== *)
(** ** Further vocabulary *)
(* ===================================================================== *)

Module Notions.
Import JS Types Vocabulary.

(** Some keyword of the list occurs in the input, letter case ignored. *)
Definition mentionsAny (ks : list string) (input : string) : bool :=
  existsb (fun k => mentions k input) ks.

Definition isProcessInput (a : DensityContext.Action) : bool :=
  match a with
  | DensityContext.ProcessInput _ => true
  | _ => false
  end.

Definition isSetManualOverride (a : DensityContext.Action) : bool :=
  match a with
  | DensityContext.SetManualOverride _ => true
  | _ => false
  end.

Definition isRecordSuccess (a : DensityContext.Action) : bool :=
  match a with
  | DensityContext.RecordSuccess => true
  | _ => false
  end.

(** The result the engine gives for the most recent input of a run that
    starts in state [s]: for each [processInput text] of the run, the
    engine's answer to [text] in the context of the state the text is
    submitted in.  [prior] stands for the result of the latest input
    before the run and is returned when the run holds no input. *)
Fixpoint latestResult (acts : list DensityContext.Action)
    (s : DensityContext.State) (prior : option IntentResult)
    : option IntentResult :=
  match acts with
  | [] => prior
  | a :: rest =>
      latestResult rest (DensityContext.step a s)
        (match a with
         | DensityContext.ProcessInput text =>
             Some (Engine.assessIntent text (DensityContext.buildContext s))
         | _ => prior
         end)
  end.

(** The number of actions of a session that satisfy [f]. *)
Definition countActions (f : DensityContext.Action -> bool)
    (acts : list DensityContext.Action) : Z :=
  Z.of_nat (List.length (filter f acts)).

(** The ways the pair (density, reasoning) of the provider can come about:
    the initial pair, a manual override just made, an override kept by
    [processInput], or the pair of the stored result. *)
Definition shownPairExplained (s : DensityContext.State) : Prop :=
  (DensityContext.density s = STANDARD
   /\ DensityContext.reasoning s = "Initial state")
  \/ DensityContext.reasoning s = "User manually overrode density"
  \/ DensityContext.reasoning s
     = "Manual Override Active (User preferred "
         ++ UIDensity_toString (DensityContext.density s) ++ ")"
  \/ (exists r, DensityContext.lastIntent s = Some r
        /\ DensityContext.density s = Types.density r
        /\ DensityContext.reasoning s = Types.reasoning r).

(** A non-empty run of decimal digits. *)
Fixpoint allDigits (s : string) : bool :=
  match s with
  | EmptyString => false
  | String c EmptyString => isDigit c
  | String c t => isDigit c && allDigits t
  end.

Definition headDigit (s : string) : bool :=
  match s with
  | String c _ => isDigit c
  | EmptyString => false
  end.

(** What follows a number without continuing it: neither a digit nor a
    dot with a digit behind it. *)
Definition endsNumber (rest : string) : bool :=
  negb (headDigit rest)
  && negb (match rest with
           | String c r => Ascii.eqb c "." && headDigit r
           | EmptyString => false
           end).

Fixpoint allWhiteSpace (s : string) : bool :=
  match s with
  | EmptyString => true
  | String c t => isWhiteSpace c && allWhiteSpace t
  end.

End Notions.

(* ===================================================================== *)
(** ** Facts about the string primitives *)
(* ===================================================================== *)

Section StringFacts.
Import JS Vocabulary.

Lemma append_assoc (a b c : string) : (a ++ b) ++ c = a ++ (b ++ c).
Proof. induction a as [|x a IH]; simpl; [reflexivity | now rewrite IH]. Qed.

Lemma append_nil_r (a : string) : a ++ EmptyString = a.
Proof. induction a as [|x a IH]; simpl; [reflexivity | now rewrite IH]. Qed.

Lemma startsWith_iff (k s : string) :
  startsWith k s = true <-> exists post, s = k ++ post.
Proof.
  revert s; induction k as [|a k IH]; intros s; simpl.
  - split; [intros _; now exists s | reflexivity].
  - destruct s as [|b s].
    + split; [discriminate | intros [post H]; discriminate].
    + rewrite andb_true_iff, Ascii.eqb_eq, IH. split.
      * intros [-> [post ->]]. now exists post.
      * intros [post H]. injection H as -> ->. split; [reflexivity | now exists post].
Qed.

Lemma includes_iff (k s : string) :
  includes k s = true <-> exists pre post, s = pre ++ k ++ post.
Proof.
  induction s as [|b s IH].
  - simpl. rewrite orb_false_r, startsWith_iff. split.
    + intros [post H]. now exists EmptyString, post.
    + intros [pre [post H]]. destruct pre; [now exists post | discriminate].
  - cbn [includes]. rewrite orb_true_iff, IH, startsWith_iff. split.
    + intros [[post H] | [pre [post H]]].
      * now exists EmptyString, post.
      * exists (String b pre), post. simpl. now rewrite H.
    + intros [pre [post H]]. destruct pre as [|c pre].
      * left. now exists post.
      * right. injection H as _ H. now exists pre, post.
Qed.

Lemma toLowerCase_app (a b : string) :
  toLowerCase (a ++ b) = toLowerCase a ++ toLowerCase b.
Proof. induction a as [|x a IH]; simpl; [reflexivity | now rewrite IH]. Qed.

(** Lower-casing the text keeps every occurrence of a lower-case keyword. *)
Lemma includes_toLowerCase (k s : string) :
  toLowerCase k = k -> includes k s = true -> includes k (toLowerCase s) = true.
Proof.
  intros Hk. rewrite !includes_iff. intros [pre [post ->]].
  exists (toLowerCase pre), (toLowerCase post).
  now rewrite !toLowerCase_app, Hk.
Qed.

Lemma trimStart_suffix (s : string) : exists a, s = a ++ trimStart s.
Proof.
  induction s as [|c s [a IH]]; simpl.
  - now exists EmptyString.
  - destruct (isWhiteSpace c).
    + exists (String c a). simpl. now rewrite <- IH.
    + now exists EmptyString.
Qed.

Lemma trimEnd_prefix (s : string) : exists b, s = trimEnd s ++ b.
Proof.
  induction s as [|c s [b IH]]; simpl.
  - now exists EmptyString.
  - destruct (trimEnd s) as [|a t] eqn:E.
    + destruct (isWhiteSpace c).
      * now exists (String c s).
      * exists b. simpl. now rewrite IH at 1.
    + exists b. simpl. now rewrite IH at 1.
Qed.

Lemma trimEnd_cons (c : ascii) (t : string) :
  trimEnd t <> EmptyString -> trimEnd (String c t) = String c (trimEnd t).
Proof. simpl. destruct (trimEnd t); [congruence | reflexivity]. Qed.

Lemma trimEnd_app (a b : string) :
  trimEnd b <> EmptyString -> trimEnd (a ++ b) = a ++ trimEnd b.
Proof.
  intros Hb. induction a as [|c a IH]; [reflexivity |].
  change (String c a ++ b) with (String c (a ++ b)).
  rewrite trimEnd_cons; rewrite IH; [reflexivity |].
  destruct a; [exact Hb | discriminate].
Qed.

Lemma trimStart_keeps (k pre post : string) :
  firstNonWs k = true ->
  exists pre', trimStart (pre ++ k ++ post) = pre' ++ k ++ post.
Proof.
  intros Hk. destruct k as [|c k]; [discriminate |]. simpl in Hk.
  apply negb_true_iff in Hk.
  induction pre as [|a pre [pre' IH]]; simpl.
  - rewrite Hk. now exists EmptyString.
  - destruct (isWhiteSpace a).
    + now exists pre'.
    + now exists (String a pre).
Qed.

Lemma trimEnd_keeps_head (k post : string) :
  lastNonWs k = true ->
  exists post', trimEnd (k ++ post) = k ++ post'.
Proof.
  induction k as [|c k IH]; [discriminate |].
  destruct k as [|b k].
  - cbn [lastNonWs]. intros Hc. apply negb_true_iff in Hc.
    exists (trimEnd post). simpl. rewrite Hc. now destruct (trimEnd post).
  - intros Hk. destruct (IH Hk) as [post' E]. exists post'.
    change (String c (String b k) ++ post) with (String c (String b k ++ post)).
    rewrite trimEnd_cons; rewrite E; [reflexivity | discriminate].
Qed.

Lemma trimEnd_keeps (k pre post : string) :
  lastNonWs k = true ->
  exists post', trimEnd (pre ++ k ++ post) = pre ++ k ++ post'.
Proof.
  intros Hk. destruct (trimEnd_keeps_head k post Hk) as [post' E].
  exists post'. rewrite trimEnd_app; rewrite E; [reflexivity |].
  destruct k; [discriminate | discriminate].
Qed.

(** Trimming neither creates nor destroys an occurrence of a keyword that
    has no white space at its ends. *)
Lemma includes_trim (k s : string) :
  firstNonWs k = true -> lastNonWs k = true ->
  includes k (trim s) = includes k s.
Proof.
  intros Hf Hl. apply eq_true_iff_eq. rewrite !includes_iff. unfold trim. split.
  - intros [pre [post E]].
    destruct (trimStart_suffix s) as [a Ha].
    destruct (trimEnd_prefix (trimStart s)) as [b Hb].
    exists (a ++ pre), (post ++ b).
    rewrite Ha at 1. rewrite Hb, E. now rewrite !append_assoc.
  - intros [pre [post ->]].
    destruct (trimStart_keeps k pre post Hf) as [pre' ->].
    destruct (trimEnd_keeps k pre' post Hl) as [post' ->].
    now exists pre', post'.
Qed.

Lemma some_iff (ks : list string) (text : string) :
  some ks text = true <-> exists k, In k ks /\ includes k text = true.
Proof. unfold some. apply existsb_exists. Qed.

Lemma some_false_iff (ks : list string) (text : string) :
  some ks text = false <-> forall k, In k ks -> includes k text = false.
Proof.
  rewrite <- not_true_iff_false, some_iff. split.
  - intros H k Hk. destruct (includes k text) eqn:E; [| reflexivity].
    exfalso. apply H. now exists k.
  - intros H [k [Hk E]]. rewrite (H k Hk) in E. discriminate.
Qed.

End StringFacts.

(* ===================================================================== *)
(** ** The engine *)
(* ===================================================================== *)

Section EngineFacts.
Import JS Types Engine Vocabulary.

(** *** Keywords survive the normalisation *)

Lemma allSignals_ok : forallb signalOk allSignals = true.
Proof. vm_compute. reflexivity. Qed.

Lemma signalOk_in (k : string) : In k allSignals -> signalOk k = true.
Proof. apply (proj1 (forallb_forall signalOk allSignals) allSignals_ok). Qed.

Lemma in_uncertainty (k : string) : In k UNCERTAINTY_SIGNALS -> In k allSignals.
Proof. unfold allSignals. intros H. right. apply in_or_app. now left. Qed.

Lemma in_reflective (k : string) : In k REFLECTIVE_SIGNALS -> In k allSignals.
Proof.
  unfold allSignals. intros H. right.
  apply in_or_app; right. apply in_or_app. now left.
Qed.

Lemma in_urgency (k : string) : In k URGENCY_HIGH_SIGNALS -> In k allSignals.
Proof.
  unfold allSignals. intros H. right.
  do 2 (apply in_or_app; right). apply in_or_app. now left.
Qed.

Lemma in_analytical (k : string) : In k ANALYTICAL_SIGNALS -> In k allSignals.
Proof.
  unfold allSignals. intros H. right.
  do 3 (apply in_or_app; right). exact H.
Qed.

Lemma signalOk_parts (k : string) :
  signalOk k = true ->
  toLowerCase k = k /\ firstNonWs k = true /\ lastNonWs k = true.
Proof.
  unfold signalOk. rewrite !andb_true_iff, String.eqb_eq. tauto.
Qed.

(** On a well-formed keyword the engine's test on the normalised text is
    the case-blind occurrence in the raw input. *)
Lemma includes_normalize (k input : string) :
  signalOk k = true -> includes k (normalize input) = mentions k input.
Proof.
  intros H. destruct (signalOk_parts k H) as [_ [Hf Hl]].
  unfold normalize, mentions. now apply includes_trim.
Qed.

(** An occurrence in the raw input is in particular a case-blind one. *)
Lemma includes_mentions (k input : string) :
  signalOk k = true -> includes k input = true -> mentions k input = true.
Proof.
  intros H. destruct (signalOk_parts k H) as [Hlow _].
  unfold mentions. now apply includes_toLowerCase.
Qed.

Lemma some_normalize (ks : list string) (input : string) :
  (forall k, In k ks -> In k allSignals) ->
  some ks (normalize input) = existsb (fun k => mentions k input) ks.
Proof.
  unfold some. induction ks as [|k ks IH]; intros Hin; [reflexivity |].
  simpl. rewrite includes_normalize, IH.
  - reflexivity.
  - intros k' Hk'. apply Hin. now right.
  - apply signalOk_in, Hin. now left.
Qed.

Lemma existsb_true_of_in (f : string -> bool) (ks : list string) (k : string) :
  In k ks -> f k = true -> existsb f ks = true.
Proof. intros Hin Hf. apply existsb_exists. now exists k. Qed.

Lemma existsb_false_of_all (f : string -> bool) (ks : list string) :
  (forall k, In k ks -> f k = false) -> existsb f ks = false.
Proof.
  intros H. induction ks as [|k ks IH]; [reflexivity |].
  simpl. rewrite (H k (or_introl eq_refl)), IH; [reflexivity |].
  intros k' Hk'. apply H. now right.
Qed.

Lemma unrecognized_split (input : string) :
  unrecognized input = true ->
  mentions "!" input = false
  /\ existsb (fun k => mentions k input) UNCERTAINTY_SIGNALS = false
  /\ existsb (fun k => mentions k input) REFLECTIVE_SIGNALS = false
  /\ existsb (fun k => mentions k input) URGENCY_HIGH_SIGNALS = false
  /\ existsb (fun k => mentions k input) ANALYTICAL_SIGNALS = false.
Proof.
  unfold unrecognized, allSignals. rewrite negb_true_iff.
  cbn [existsb]. rewrite !existsb_app, !orb_false_iff. tauto.
Qed.

(** *** The fields of a result *)

Lemma assessIntent_type (input : string) (ctx : UIContext) :
  type (assessIntent input ctx) = detectIntentType (normalize input).
Proof. unfold assessIntent. cbv zeta. now destruct resolveDensity. Qed.

Lemma assessIntent_urgency (input : string) (ctx : UIContext) :
  urgency (assessIntent input ctx) = detectUrgency (normalize input).
Proof. unfold assessIntent. cbv zeta. now destruct resolveDensity. Qed.

Lemma assessIntent_confidence (input : string) (ctx : UIContext) :
  confidence (assessIntent input ctx) = computeConfidence (normalize input) ctx.
Proof. unfold assessIntent. cbv zeta. now destruct resolveDensity. Qed.

Lemma assessIntent_density (input : string) (ctx : UIContext) :
  density (assessIntent input ctx)
  = fst (resolveDensity (detectIntentType (normalize input))
           (computeConfidence (normalize input) ctx)
           (detectUrgency (normalize input)) ctx).
Proof. unfold assessIntent. cbv zeta. now destruct resolveDensity. Qed.

Lemma assessIntent_reasoning (input : string) (ctx : UIContext) :
  reasoning (assessIntent input ctx)
  = snd (resolveDensity (detectIntentType (normalize input))
           (computeConfidence (normalize input) ctx)
           (detectUrgency (normalize input)) ctx).
Proof. unfold assessIntent. cbv zeta. now destruct resolveDensity. Qed.

(** The engine reads two fields of its context and nothing else. *)
Lemma assessIntent_ext (input : string) (c1 c2 : UIContext) :
  backspaceCount (userProfile c1) = backspaceCount (userProfile c2) ->
  lastIntentChanged (userProfile c1) = lastIntentChanged (userProfile c2) ->
  assessIntent input c1 = assessIntent input c2.
Proof.
  intros Hb Hl. unfold assessIntent, computeConfidence, resolveDensity.
  now rewrite Hb, Hl.
Qed.

(** *** The score *)

(** Splits the score on the five signals it is built from. *)
Ltac score_cases text ctx :=
  unfold computeConfidence;
  destruct (some UNCERTAINTY_SIGNALS text);
  destruct (some REFLECTIVE_SIGNALS text);
  destruct (5 <? backspaceCount (userProfile ctx))%Z;
  destruct (lastIntentChanged (userProfile ctx));
  destruct (testDigits text).

Lemma computeConfidence_range (text : string) (ctx : UIContext) :
  (0 <=? computeConfidence text ctx)%float = true
  /\ (computeConfidence text ctx <=? 1)%float = true.
Proof. score_cases text ctx; vm_compute; split; reflexivity. Qed.

(** Reaching the expanded threshold is the same as not being below it:
    the score is a number, never NaN. *)
Lemma computeConfidence_not_below (text : string) (ctx : UIContext) :
  (CONFIDENCE_THRESHOLDS.expanded <=? computeConfidence text ctx)%float = true ->
  (computeConfidence text ctx <? CONFIDENCE_THRESHOLDS.expanded)%float = false.
Proof. score_cases text ctx; vm_compute; congruence. Qed.

(** Without a hedging or reflective word the score stays at or above the
    minimal threshold, whatever the profile says. *)
Lemma computeConfidence_plain (text : string) (ctx : UIContext) :
  some UNCERTAINTY_SIGNALS text = false ->
  some REFLECTIVE_SIGNALS text = false ->
  (computeConfidence text ctx <? CONFIDENCE_THRESHOLDS.expanded)%float = false
  /\ (CONFIDENCE_THRESHOLDS.minimal <=? computeConfidence text ctx)%float = true.
Proof.
  intros Hu Hr. unfold computeConfidence. rewrite Hu, Hr.
  destruct (5 <? backspaceCount (userProfile ctx))%Z;
    destruct (lastIntentChanged (userProfile ctx));
    destruct (testDigits text); vm_compute; split; reflexivity.
Qed.

Lemma computeConfidence_one (text : string) (ctx : UIContext) :
  some UNCERTAINTY_SIGNALS text = false ->
  some REFLECTIVE_SIGNALS text = false ->
  (backspaceCount (userProfile ctx) <= 5)%Z ->
  lastIntentChanged (userProfile ctx) = false ->
  computeConfidence text ctx = 1%float.
Proof.
  intros Hu Hr Hb Hl. unfold computeConfidence. rewrite Hu, Hr, Hl.
  replace (5 <? backspaceCount (userProfile ctx))%Z with false
    by (symmetry; apply Z.ltb_ge; exact Hb).
  destruct (testDigits text); vm_compute; reflexivity.
Qed.

Lemma isDigit_lowerChar (c : ascii) : isDigit (lowerChar c) = isDigit c.
Proof. destruct c as [[] [] [] [] [] [] [] []]; vm_compute; reflexivity. Qed.

Lemma space_is_no_digit (c : ascii) : isWhiteSpace c = true -> isDigit c = false.
Proof. destruct c as [[] [] [] [] [] [] [] []]; vm_compute; congruence. Qed.

Lemma testDigits_toLowerCase (s : string) :
  testDigits (toLowerCase s) = testDigits s.
Proof.
  induction s as [|c s IH]; [reflexivity |].
  simpl. now rewrite isDigit_lowerChar, IH.
Qed.

Lemma testDigits_trimStart (s : string) : testDigits (trimStart s) = testDigits s.
Proof.
  induction s as [|c s IH]; [reflexivity |].
  simpl. destruct (isWhiteSpace c) eqn:E; [| reflexivity].
  now rewrite (space_is_no_digit c E), IH.
Qed.

Lemma testDigits_trimEnd (s : string) : testDigits (trimEnd s) = testDigits s.
Proof.
  induction s as [|c s IH]; [reflexivity |].
  simpl. destruct (trimEnd s) as [|a u] eqn:E.
  - rewrite <- IH. simpl. rewrite orb_false_r.
    destruct (isWhiteSpace c) eqn:Ec; [| simpl; now rewrite orb_false_r].
    now rewrite (space_is_no_digit c Ec).
  - now rewrite <- IH.
Qed.

(** Normalising keeps the digits of the input. *)
Lemma testDigits_normalize (input : string) :
  testDigits (Engine.normalize input) = testDigits input.
Proof.
  unfold Engine.normalize, trim.
  now rewrite testDigits_trimEnd, testDigits_trimStart, testDigits_toLowerCase.
Qed.

(** The score of a text without hedging or reflective word: the two
    behavioural penalties and the digit bonus, evaluated in binary64. *)
Lemma computeConfidence_plain_value (text : string) (ctx : UIContext) :
  some UNCERTAINTY_SIGNALS text = false ->
  some REFLECTIVE_SIGNALS text = false ->
  computeConfidence text ctx
  = (if (5 <? backspaceCount (userProfile ctx))%Z
        && lastIntentChanged (userProfile ctx)
     then (if testDigits text then 0.9 else 0.8)
     else if (5 <? backspaceCount (userProfile ctx))%Z
             || lastIntentChanged (userProfile ctx)
     then (if testDigits text then 1 else 0.9)
     else 1)%float.
Proof.
  intros Hu Hr. unfold computeConfidence. rewrite Hu, Hr.
  destruct (5 <? backspaceCount (userProfile ctx))%Z;
    destruct (lastIntentChanged (userProfile ctx));
    destruct (testDigits text); vm_compute; reflexivity.
Qed.

End EngineFacts.

Section EngineProperties.
Import JS Types Engine Vocabulary EngineTest.

(** *** The five inputs of the test runner *)

Example confident_action :
  let r := assessIntent "Add 500 dollars for food" mockContext in
  (type r, urgency r, density r, reasoning r)
  = (ACTION, NORMAL, MINIMAL, "Confidence (1.00) is high for Action").
Proof. vm_compute. reflexivity. Qed.

Example uncertainty :
  let r := assessIntent "I think I spent around 50 maybe" mockContext in
  (type r, urgency r, density r, reasoning r)
  = (ACTION, NORMAL, EXPANDED, "Confidence (0.70) is below threshold (0.75)").
Proof. vm_compute. reflexivity. Qed.

Example reflective :
  let r := assessIntent "Why am I broke" mockContext in
  (type r, urgency r, density r, reasoning r)
  = (REFLECTIVE, NORMAL, EXPANDED, "User is seeking guidance (Reflective Intent)").
Proof. vm_compute. reflexivity. Qed.

Example urgent_action :
  let r := assessIntent "Delete it now!" mockContext in
  (type r, urgency r, density r, reasoning r)
  = (ACTION, HIGH, MINIMAL, "High urgency detected - prioritizing speed").
Proof. vm_compute. reflexivity. Qed.

Example analytical :
  let r := assessIntent "Show my spending chart" mockContext in
  (type r, urgency r, density r, reasoning r)
  = (ANALYTICAL, NORMAL, STANDARD, "Default density for balanced interaction").
Proof. vm_compute. reflexivity. Qed.

(** *** Intent detection *)

(** The older classifier of [lib/intent-classifier.ts] does consult an
    action list between the reflective and the analytical one. *)
Lemma legacy_action_before_analytical (text : string) :
  some Legacy.REFLECTIVE_SIGNALS text = false ->
  some Legacy.ACTION_SIGNALS text = true ->
  Legacy.detectIntentType text = ACTION.
Proof. intros Hr Ha. unfold Legacy.detectIntentType. now rewrite Hr, Ha. Qed.

(** C1, as stated, fails on the engine: "add 10 and show chart" contains
    the action word "add" and the analytical keywords "show" and "chart",
    contains no reflective keyword, and is classified ANALYTICAL, not
    ACTION. *)
Lemma action_word_does_not_win :
  let input := "add 10 and show chart" in
  includes "add" (normalize input) = true
  /\ In "add" Legacy.ACTION_SIGNALS
  /\ some ANALYTICAL_SIGNALS (normalize input) = true
  /\ some REFLECTIVE_SIGNALS (normalize input) = false
  /\ type (assessIntent input mockContext) = ANALYTICAL
  /\ type (assessIntent input mockContext) <> ACTION.
Proof.
  cbv zeta. repeat split; try (vm_compute; reflexivity).
  - simpl. now left.
  - vm_compute. discriminate.
Qed.

(** C1 (amended): over the normalised input the engine consults two
    disjoint keyword lists, the reflective one and then the analytical
    one.  A reflective keyword makes the intent REFLECTIVE; failing that an
    analytical keyword makes it ANALYTICAL, whatever else the text
    contains; failing both the intent is ACTION, which has no keyword list
    of its own. *)
Theorem detectIntentType_order (input : string) (ctx : UIContext) :
  let text := normalize input in
  disjoint REFLECTIVE_SIGNALS ANALYTICAL_SIGNALS = true
  /\ ((exists k, In k REFLECTIVE_SIGNALS /\ includes k text = true) ->
      type (assessIntent input ctx) = REFLECTIVE)
  /\ ((forall k, In k REFLECTIVE_SIGNALS -> includes k text = false) ->
      (exists k, In k ANALYTICAL_SIGNALS /\ includes k text = true) ->
      type (assessIntent input ctx) = ANALYTICAL)
  /\ ((forall k, In k REFLECTIVE_SIGNALS -> includes k text = false) ->
      (forall k, In k ANALYTICAL_SIGNALS -> includes k text = false) ->
      type (assessIntent input ctx) = ACTION).
Proof.
  cbv zeta. rewrite assessIntent_type. unfold detectIntentType.
  rewrite <- !some_iff, <- !some_false_iff.
  split; [vm_compute; reflexivity |].
  split; [intros -> ; reflexivity |].
  split; [intros -> -> ; reflexivity | intros -> -> ; reflexivity].
Qed.

Lemma detectIntentType_order_witness :
  type (assessIntent "Why am I broke" mockContext) = REFLECTIVE
  /\ type (assessIntent "Show my spending chart" mockContext) = ANALYTICAL
  /\ type (assessIntent "Add 500 dollars for food" mockContext) = ACTION.
Proof.
  split; [| split].
  - apply (detectIntentType_order "Why am I broke" mockContext).
    exists "why". split; [vm_compute; tauto | vm_compute; reflexivity].
  - apply (detectIntentType_order "Show my spending chart" mockContext).
    + apply some_false_iff. vm_compute. reflexivity.
    + exists "show". split; [vm_compute; tauto | vm_compute; reflexivity].
  - apply (detectIntentType_order "Add 500 dollars for food" mockContext).
    + apply some_false_iff. vm_compute. reflexivity.
    + apply some_false_iff. vm_compute. reflexivity.
Defined.

(** *** Density rule 1 *)

(** C4: an input that contains a reflective keyword, as written or up to
    letter case, gets density EXPANDED under every context. *)
Theorem reflective_keyword_expanded
    (input : string) (ctx : UIContext) (k : string) :
  In k REFLECTIVE_SIGNALS ->
  includes k input = true \/ mentions k input = true ->
  density (assessIntent input ctx) = EXPANDED.
Proof.
  intros Hin Hocc.
  assert (Hok : signalOk k = true) by now apply signalOk_in, in_reflective.
  assert (Hm : mentions k input = true).
  { destruct Hocc as [H | H]; [now apply includes_mentions | exact H]. }
  assert (Hr : some REFLECTIVE_SIGNALS (normalize input) = true).
  { apply some_iff. exists k. split; [exact Hin |].
    now rewrite includes_normalize. }
  rewrite assessIntent_density. unfold detectIntentType. rewrite Hr.
  reflexivity.
Qed.

Lemma reflective_keyword_expanded_witness :
  In "broke" REFLECTIVE_SIGNALS
  /\ mentions "broke" "Why am I BROKE, 5 now!" = true
  /\ density (assessIntent "Why am I BROKE, 5 now!" mockContext) = EXPANDED.
Proof.
  assert (Hin : In "broke" REFLECTIVE_SIGNALS) by (vm_compute; tauto).
  assert (Hm : mentions "broke" "Why am I BROKE, 5 now!" = true)
    by (vm_compute; reflexivity).
  split; [exact Hin |]. split; [exact Hm |].
  exact (reflective_keyword_expanded _ mockContext "broke" Hin (or_intror Hm)).
Defined.

(** *** Density rule 3 *)

(** C5: an input with an exclamation mark or an urgency keyword and
    without any reflective keyword gets density MINIMAL as soon as its
    score reaches the expanded threshold, 0.75. *)
Theorem urgent_confident_minimal (input : string) (ctx : UIContext) :
  (includes "!" input = true
   \/ exists u, In u URGENCY_HIGH_SIGNALS /\ mentions u input = true) ->
  (forall r, In r REFLECTIVE_SIGNALS -> mentions r input = false) ->
  (CONFIDENCE_THRESHOLDS.expanded <=? confidence (assessIntent input ctx))%float
  = true ->
  density (assessIntent input ctx) = MINIMAL.
Proof.
  intros Hurg Hnor Hconf.
  rewrite assessIntent_confidence in Hconf.
  apply computeConfidence_not_below in Hconf.
  assert (Hr : some REFLECTIVE_SIGNALS (normalize input) = false).
  { rewrite some_normalize by apply in_reflective.
    now apply existsb_false_of_all. }
  assert (Hu : detectUrgency (normalize input) = HIGH).
  { unfold detectUrgency. destruct Hurg as [Hbang | [u [Hin Hm]]].
    - rewrite includes_normalize by (vm_compute; reflexivity).
      rewrite includes_mentions; [reflexivity | vm_compute; reflexivity | exact Hbang].
    - destruct (includes "!" (normalize input)); [reflexivity |].
      rewrite some_normalize by apply in_urgency.
      now rewrite (existsb_true_of_in _ _ u Hin Hm). }
  rewrite assessIntent_density. unfold detectIntentType. rewrite Hr, Hu.
  unfold resolveDensity. rewrite Hconf.
  now destruct (some ANALYTICAL_SIGNALS (normalize input)).
Qed.

Lemma urgent_confident_minimal_witness :
  density (assessIntent "Delete it now!" mockContext) = MINIMAL.
Proof.
  apply urgent_confident_minimal.
  - left. vm_compute. reflexivity.
  - intros r Hr. vm_compute in Hr.
    repeat (destruct Hr as [<- | Hr]; [vm_compute; reflexivity |]).
    contradiction.
  - vm_compute. reflexivity.
Defined.

(** *** The score *)

(** C8: the score of every result lies between 0 and 1, whatever the text
    and whatever the counters and the flag of the profile hold. *)
Theorem confidence_in_unit_interval (input : string) (ctx : UIContext) :
  (0 <=? confidence (assessIntent input ctx))%float = true
  /\ (confidence (assessIntent input ctx) <=? 1)%float = true.
Proof. rewrite assessIntent_confidence. apply computeConfidence_range. Qed.

(** *** Text without any signal *)

(** C7, as stated, fails for a profile with a hesitation penalty: on the
    empty text and a back-space count of 6 the score is 0.9, not 1.0. *)
Lemma empty_text_hesitant_profile :
  unrecognized EmptyString = true
  /\ confidence (assessIntent EmptyString hesitantContext) = 0.9%float
  /\ confidence (assessIntent EmptyString hesitantContext) <> 1%float
  /\ (confidence (assessIntent EmptyString hesitantContext) <? 1)%float = true.
Proof.
  repeat split; try (vm_compute; reflexivity).
  vm_compute. intros H.
  apply (f_equal (fun x => (x <? 1)%float)) in H. vm_compute in H. discriminate.
Qed.

(** C7 (amended): classification is a total function.  On a text without
    any signal (the empty text is one) the intent is ACTION and the
    urgency is NORMAL.  The score is 1.0 when the profile carries no
    behavioural penalty; with one of the two penalties it is 0.9 and with
    both 0.8, raised by 0.1 when the text holds a digit (1.0 and 0.9); it
    is never below the minimal threshold.  The density is decided by
    rule 4: MINIMAL, with the reasoning of the confident action. *)
Theorem unrecognized_text_defaults (input : string) (ctx : UIContext) :
  unrecognized input = true ->
  let r := assessIntent input ctx in
  type r = ACTION
  /\ urgency r = NORMAL
  /\ confidence r
     = (if (5 <? backspaceCount (userProfile ctx))%Z
           && lastIntentChanged (userProfile ctx)
        then (if testDigits input then 0.9 else 0.8)
        else if (5 <? backspaceCount (userProfile ctx))%Z
                || lastIntentChanged (userProfile ctx)
        then (if testDigits input then 1 else 0.9)
        else 1)%float
  /\ ((backspaceCount (userProfile ctx) <= 5)%Z ->
      lastIntentChanged (userProfile ctx) = false ->
      confidence r = 1%float)
  /\ (CONFIDENCE_THRESHOLDS.minimal <=? confidence r)%float = true
  /\ density r = MINIMAL
  /\ reasoning r
     = "Confidence (" ++ toFixed2 (confidence r) ++ ") is high for Action".
Proof.
  intros Hun. cbv zeta.
  destruct (unrecognized_split input Hun) as [Hbang [Hu [Hr [Hg Ha]]]].
  rewrite <- includes_normalize in Hbang by (vm_compute; reflexivity).
  rewrite <- some_normalize in Hu by apply in_uncertainty.
  rewrite <- some_normalize in Hr by apply in_reflective.
  rewrite <- some_normalize in Hg by apply in_urgency.
  rewrite <- some_normalize in Ha by apply in_analytical.
  destruct (computeConfidence_plain (normalize input) ctx Hu Hr) as [Hlow Hhigh].
  pose proof (computeConfidence_plain_value (normalize input) ctx Hu Hr) as Hval.
  rewrite testDigits_normalize in Hval.
  rewrite assessIntent_type, assessIntent_urgency, assessIntent_confidence,
    assessIntent_density, assessIntent_reasoning.
  unfold detectIntentType, detectUrgency. rewrite Hr, Ha, Hbang, Hg.
  unfold resolveDensity. rewrite Hlow, Hhigh. cbn [IntentType_eqb UrgencyLevel_eqb andb fst snd].
  split; [reflexivity |]. split; [reflexivity |]. split; [exact Hval |].
  split; [intros Hb Hl; now apply computeConfidence_one |].
  split; [reflexivity |]. split; reflexivity.
Qed.

Lemma unrecognized_text_defaults_witness :
  let r := assessIntent EmptyString hesitantContext in
  type r = ACTION
  /\ urgency r = NORMAL
  /\ confidence r = 0.9%float
  /\ density r = MINIMAL
  /\ reasoning r = "Confidence (0.90) is high for Action".
Proof.
  cbv zeta.
  destruct (unrecognized_text_defaults EmptyString hesitantContext eq_refl)
    as [Ht [Hu [Hs [_ [_ [Hd Hr]]]]]].
  split; [exact Ht |]. split; [exact Hu |]. split; [exact Hs |].
  split; [exact Hd |].
  rewrite Hr. vm_compute. reflexivity.
Defined.

End EngineProperties.

(* ===================================================================== *)
(** ** The density tracker *)
(* ===================================================================== *)

Section TrackerFacts.
Import JS Types Vocabulary.
Import DensityContext.

Lemma IntentType_eqb_refl (t : IntentType) : IntentType_eqb t t = true.
Proof. now destruct t. Qed.

Lemma run_app (xs ys : list Action) (s : State) :
  run (xs ++ ys)%list s = run ys (run xs s).
Proof. unfold run. apply fold_left_app. Qed.

Lemma run_snoc (xs : list Action) (a : Action) (s : State) :
  run (xs ++ [a])%list s = step a (run xs s).
Proof. now rewrite run_app. Qed.

(** [reachable] is what [run] produces from the initial state. *)
Lemma reachable_run (acts : list Action) : reachable (run acts initialState).
Proof.
  induction acts as [|a acts IH] using rev_ind.
  - apply reachable_init.
  - rewrite run_snoc. now apply reachable_step.
Qed.

Lemma run_reachable (s : State) :
  reachable s -> exists acts, s = run acts initialState.
Proof.
  induction 1 as [|a s _ [acts ->]].
  - now exists [].
  - exists (acts ++ [a])%list. now rewrite run_snoc.
Qed.

(** No action writes the hesitation counter or the intent-changed flag. *)
Lemma step_behavioural_fields (a : Action) (s : State) :
  backspaceCount (DensityContext.userProfile (step a s))
  = backspaceCount (DensityContext.userProfile s)
  /\ lastIntentChanged (DensityContext.userProfile (step a s))
     = lastIntentChanged (DensityContext.userProfile s).
Proof. destruct a; split; reflexivity. Qed.

Lemma reachable_behavioural_fields (s : State) :
  reachable s ->
  backspaceCount (DensityContext.userProfile s) = 0%Z
  /\ lastIntentChanged (DensityContext.userProfile s) = false.
Proof.
  induction 1 as [|a s _ [IHb IHl]]; [split; reflexivity |].
  destruct (step_behavioural_fields a s) as [-> ->]. now split.
Qed.

(** The result of [processInput] depends on the text and on the two
    behavioural fields of the stored profile only. *)
Lemma processInput_result_ext (text : string) (s s' : State) :
  backspaceCount (DensityContext.userProfile s)
  = backspaceCount (DensityContext.userProfile s') ->
  lastIntentChanged (DensityContext.userProfile s)
  = lastIntentChanged (DensityContext.userProfile s') ->
  Engine.assessIntent text (buildContext s)
  = Engine.assessIntent text (buildContext s').
Proof. intros Hb Hl. now apply assessIntent_ext. Qed.

Lemma processInput_no_override (text : string) (s : State) :
  manualOverride s = None ->
  let r := Engine.assessIntent text (buildContext s) in
  DensityContext.density (processInput text s) = Types.density r
  /\ DensityContext.reasoning (processInput text s) = Types.reasoning r
  /\ manualOverride (processInput text s) = None.
Proof.
  intros Hno. unfold processInput, activeOverride. rewrite Hno.
  cbn. repeat split.
Qed.

(** Two states from which the engine answers alike and the override
    decays alike show the same after [processInput]. *)
Lemma processInput_congr (text : string) (s s' : State) :
  Engine.assessIntent text (buildContext s')
  = Engine.assessIntent text (buildContext s) ->
  activeOverride s' (Engine.assessIntent text (buildContext s))
  = activeOverride s (Engine.assessIntent text (buildContext s)) ->
  DensityContext.density (processInput text s')
  = DensityContext.density (processInput text s)
  /\ DensityContext.reasoning (processInput text s')
     = DensityContext.reasoning (processInput text s)
  /\ lastIntent (processInput text s') = lastIntent (processInput text s)
  /\ manualOverride (processInput text s') = manualOverride (processInput text s).
Proof.
  intros Hres Hact. unfold processInput. cbn. rewrite Hres, Hact.
  repeat split.
Qed.

(** The stored result is the engine's result for the most recent input. *)
Lemma lastIntent_run (acts : list Action) (s : State) :
  lastIntent (run acts s) = Notions.latestResult acts s (lastIntent s).
Proof.
  revert s. induction acts as [|a acts IH]; intros s; [reflexivity |].
  change (run (a :: acts) s) with (run acts (step a s)).
  rewrite IH. cbn [Notions.latestResult]. now destruct a.
Qed.

(** What [processInput] shows, in terms of the engine's answer to the
    text it is given. *)
Lemma processInput_shown (text : string) (s : State) :
  let r := Engine.assessIntent text (buildContext s) in
  lastIntent (processInput text s) = Some r
  /\ match manualOverride (processInput text s) with
     | Some d => currentDensity (processInput text s) = d
     | None => currentDensity (processInput text s) = Types.density r
     end.
Proof.
  cbv zeta. unfold currentDensity, processInput. cbn.
  split; [reflexivity |]. now destruct (activeOverride s _).
Qed.

End TrackerFacts.

Section TrackerProperties.
Import JS Types Vocabulary.
Import DensityContext.

(** *** What the provider shows *)

(** C2, as stated, fails after [recordSuccess]: the session
    "Why am I broke", override to MINIMAL, success ends with no override,
    the engine's density for the latest input being EXPANDED, and the
    provider still showing MINIMAL. *)
Lemma stale_density_after_success :
  let s := run [ProcessInput "Why am I broke";
                SetManualOverride MINIMAL;
                RecordSuccess] initialState in
  manualOverride s = None
  /\ option_map Types.density (lastIntent s) = Some EXPANDED
  /\ currentDensity s = MINIMAL
  /\ ~ densityInvariant s.
Proof.
  cbv zeta. repeat split; try (vm_compute; reflexivity).
  vm_compute. discriminate.
Qed.

(** C2 (amended): after [processInput] and after the manual override the
    density shown is the active override if there is one and otherwise
    the density the engine computes for the most recent input, the text
    just processed; the stored result is the engine's result for that
    input throughout a session.  [recordSuccess] clears the override and
    leaves the density shown and the stored result as they were: the
    property carries over when no override was active, and after an
    override is cleared the former override value stays visible. *)
Theorem shown_density_invariant (s : State) (acts : list Action) :
  (* [processInput]: the engine's answer to the text just submitted *)
  (forall text,
     let r := Engine.assessIntent text (buildContext s) in
     lastIntent (processInput text s) = Some r
     /\ match manualOverride (processInput text s) with
        | Some d => currentDensity (processInput text s) = d
        | None => currentDensity (processInput text s) = Types.density r
        end)
  (* [setManualOverride]: the override is active and shown *)
  /\ (forall d,
       manualOverride (handleManualOverride d s) = Some d
       /\ currentDensity (handleManualOverride d s) = d)
  (* along a session: the stored result is the engine's result for the
     most recent input, and after any action but [recordSuccess] the
     density shown is the override or the engine's density for it *)
  /\ lastIntent (run acts s) = Notions.latestResult acts s (lastIntent s)
  /\ (forall a, Notions.isRecordSuccess a = false ->
       let s' := run (acts ++ [a])%list s in
       match manualOverride s' with
       | Some d => currentDensity s' = d
       | None =>
           Some (currentDensity s')
           = option_map Types.density
               (Notions.latestResult (acts ++ [a])%list s (lastIntent s))
       end)
  /\ (forall text, densityInvariant (processInput text s))
  /\ (forall d, densityInvariant (handleManualOverride d s))
  (* [recordSuccess] *)
  /\ manualOverride (recordSuccess s) = None
  /\ currentDensity (recordSuccess s) = currentDensity s
  /\ lastIntent (recordSuccess s) = lastIntent s
  /\ (manualOverride s = None ->
      densityInvariant s -> densityInvariant (recordSuccess s))
  /\ (forall d, manualOverride s = Some d ->
      densityInvariant s -> currentDensity (recordSuccess s) = d).
Proof.
  split; [intros text; apply processInput_shown |].
  split; [intros d; split; reflexivity |].
  split; [apply lastIntent_run |].
  split.
  { intros a Ha. cbv zeta. rewrite <- lastIntent_run, run_snoc.
    destruct a as [text | d |]; [| reflexivity | discriminate].
    cbn [step].
    destruct (processInput_shown text (run acts s)) as [Hlast Hshown].
    rewrite Hlast. cbn [option_map].
    destruct (manualOverride (processInput text (run acts s)));
      [exact Hshown | now rewrite Hshown]. }
  split.
  { intros text. unfold densityInvariant, expectedDensity, currentDensity.
    unfold processInput. cbn.
    now destruct (activeOverride s _). }
  split; [intros d; reflexivity |].
  split; [unfold recordSuccess; cbn; now destruct (manualOverride s) |].
  split; [reflexivity |].
  split; [reflexivity |].
  split.
  - unfold densityInvariant, expectedDensity, currentDensity, recordSuccess.
    cbn. intros ->. trivial.
  - unfold densityInvariant, expectedDensity, currentDensity, recordSuccess.
    cbn. intros d ->. trivial.
Qed.

Lemma shown_density_invariant_witness :
  let s := run [ProcessInput "Add 10 food"; SetManualOverride STANDARD]
             initialState in
  densityInvariant (processInput "Why am I broke" s)
  /\ manualOverride (processInput "Why am I broke" s) = None
  /\ currentDensity (processInput "Why am I broke" s)
     = Types.density (Engine.assessIntent "Why am I broke" (buildContext s))
  /\ currentDensity (processInput "Why am I broke" s) = EXPANDED
  /\ currentDensity (recordSuccess s) = STANDARD.
Proof.
  cbv zeta.
  pose proof (shown_density_invariant
                (run [ProcessInput "Add 10 food"; SetManualOverride STANDARD]
                   initialState) [])
    as [Hproc [_ [_ [_ [Hin [_ [_ [_ [_ [_ Hkeep]]]]]]]]]].
  assert (Hnone : manualOverride
                    (processInput "Why am I broke"
                       (run [ProcessInput "Add 10 food";
                             SetManualOverride STANDARD] initialState))
                  = None) by (vm_compute; reflexivity).
  split; [apply Hin |].
  split; [exact Hnone |].
  split.
  { destruct (Hproc "Why am I broke") as [_ Hshown].
    cbv zeta in Hshown. rewrite Hnone in Hshown. exact Hshown. }
  split; [vm_compute; reflexivity |].
  apply Hkeep; [vm_compute; reflexivity | vm_compute; reflexivity].
Defined.

(** An override survives an input of the same intent type and decays on
    an input of another one. *)
Example override_decay :
  let s1 := run [ProcessInput "Log 5 coffee"; SetManualOverride STANDARD;
                 ProcessInput "Add 10 food"] initialState in
  let s2 := processInput "Why am I broke" s1 in
  (currentDensity s1, why s1, isOverrideActive s1)
  = (STANDARD, "Manual Override Active (User preferred STANDARD)", true)
  /\ (currentDensity s2, why s2, isOverrideActive s2)
     = (EXPANDED, "User is seeking guidance (Reflective Intent)", false).
Proof. vm_compute. split; reflexivity. Qed.

(** *** Success clears the override *)

(** C3: with an override active, [recordSuccess] clears it and adds one
    to the successful-action count; the next [processInput] adopts the
    density and the reasoning of the engine, and all of it is the same
    from any other state that holds the same profile, whatever override
    and density that state has. *)
Theorem recordSuccess_clears_override
    (s : State) (d : UIDensity) (text : string) :
  manualOverride s = Some d ->
  let s1 := recordSuccess s in
  let r := Engine.assessIntent text (buildContext s1) in
  manualOverride s1 = None
  /\ successfulActions (DensityContext.userProfile s1)
     = (successfulActions (DensityContext.userProfile s) + 1)%Z
  /\ DensityContext.density (processInput text s1) = Types.density r
  /\ DensityContext.reasoning (processInput text s1) = Types.reasoning r
  /\ manualOverride (processInput text s1) = None
  /\ (forall s', DensityContext.userProfile s' = DensityContext.userProfile s ->
      DensityContext.density (processInput text (recordSuccess s'))
      = DensityContext.density (processInput text s1)
      /\ DensityContext.reasoning (processInput text (recordSuccess s'))
         = DensityContext.reasoning (processInput text s1)).
Proof.
  intros Hov. cbv zeta.
  assert (Hnone : forall x, manualOverride (recordSuccess x) = None).
  { intros x. unfold recordSuccess. cbn. now destruct (manualOverride x). }
  destruct (processInput_no_override text (recordSuccess s) (Hnone s))
    as [Hd [Hr Ho]].
  split; [apply Hnone |]. split; [reflexivity |].
  split; [exact Hd |]. split; [exact Hr |]. split; [exact Ho |].
  intros s' Hp.
  destruct (processInput_no_override text (recordSuccess s') (Hnone s'))
    as [Hd' [Hr' _]].
  rewrite Hd, Hr, Hd', Hr'.
  rewrite (processInput_result_ext text (recordSuccess s') (recordSuccess s)).
  - split; reflexivity.
  - cbn. now rewrite Hp.
  - cbn. now rewrite Hp.
Qed.

Lemma recordSuccess_clears_override_witness :
  let s := run [ProcessInput "Show my spending chart";
                SetManualOverride EXPANDED] initialState in
  manualOverride s = Some EXPANDED
  /\ manualOverride (recordSuccess s) = None
  /\ DensityContext.density (processInput "Add 10 food" (recordSuccess s))
     = MINIMAL.
Proof.
  cbv zeta.
  pose proof (recordSuccess_clears_override
                (run [ProcessInput "Show my spending chart";
                      SetManualOverride EXPANDED] initialState)
                EXPANDED "Add 10 food" eq_refl) as H.
  cbv zeta in H. destruct H as [H1 [_ [H3 _]]].
  split; [reflexivity |]. split; [exact H1 |].
  rewrite H3. vm_compute. reflexivity.
Defined.

(** *** Repeating an input *)

(** C6: submitting the same text a second time leaves the density, the
    reasoning, the stored result and the override as the first submission
    left them; between the two calls only the interaction count of the
    profile moves. *)
Theorem processInput_twice (text : string) (s : State) :
  let s1 := processInput text s in
  let s2 := processInput text s1 in
  DensityContext.density s2 = DensityContext.density s1
  /\ DensityContext.reasoning s2 = DensityContext.reasoning s1
  /\ lastIntent s2 = lastIntent s1
  /\ manualOverride s2 = manualOverride s1.
Proof.
  cbv zeta.
  assert (Hres : Engine.assessIntent text (buildContext (processInput text s))
                 = Engine.assessIntent text (buildContext s)).
  { apply processInput_result_ext; reflexivity. }
  assert (Hact : activeOverride (processInput text s)
                   (Engine.assessIntent text (buildContext s))
                 = activeOverride s (Engine.assessIntent text (buildContext s))).
  { unfold activeOverride at 1. cbn [manualOverride lastIntent processInput].
    destruct (activeOverride s _); [| reflexivity].
    now rewrite IntentType_eqb_refl. }
  now apply processInput_congr.
Qed.

(** *** The profile *)

(** C9: in every state a session can reach the intent-changed flag of the
    profile is false, and so is the flag of the context that
    [processInput] hands to the engine from that state. *)
Theorem lastIntentChanged_never_set (acts : list Action) :
  lastIntentChanged (DensityContext.userProfile (run acts initialState)) = false
  /\ lastIntentChanged
       (Types.userProfile (buildContext (run acts initialState))) = false.
Proof.
  destruct (reachable_behavioural_fields _ (reachable_run acts)) as [_ H].
  split; [exact H | cbn; exact H].
Qed.

(** C10: [processInput] adds one to the interaction count of the profile
    and keeps its three other fields. *)
Theorem processInput_profile_frame (text : string) (s : State) :
  let p := DensityContext.userProfile s in
  let p' := DensityContext.userProfile (processInput text s) in
  interactionsThisSession p' = (interactionsThisSession p + 1)%Z
  /\ interactionsThisSession p' <> interactionsThisSession p
  /\ successfulActions p' = successfulActions p
  /\ backspaceCount p' = backspaceCount p
  /\ lastIntentChanged p' = lastIntentChanged p.
Proof.
  cbv zeta. cbn. repeat split. lia.
Qed.

End TrackerProperties.

(* ===================================================================== *)
(** ** More on the engine *)
(* ===================================================================== *)

Section EngineTextFacts.
Import JS Types Engine Vocabulary Notions.

Lemma eqb_bang_lowerChar (c : ascii) :
  Ascii.eqb "!" (lowerChar c) = Ascii.eqb "!" c.
Proof. destruct c as [[] [] [] [] [] [] [] []]; vm_compute; reflexivity. Qed.

(** Lower-casing neither adds nor removes an exclamation mark. *)
Lemma mentions_bang (s : string) : mentions "!" s = includes "!" s.
Proof.
  unfold mentions. induction s as [|c s IH]; [reflexivity |].
  cbn [toLowerCase includes startsWith]. rewrite IH.
  now rewrite eqb_bang_lowerChar.
Qed.

Lemma bang_normalize (input : string) :
  includes "!" (normalize input) = includes "!" input.
Proof.
  rewrite includes_normalize by (vm_compute; reflexivity). apply mentions_bang.
Qed.

Lemma some_reflective (input : string) :
  some REFLECTIVE_SIGNALS (normalize input) = mentionsAny REFLECTIVE_SIGNALS input.
Proof. apply some_normalize, in_reflective. Qed.

Lemma some_uncertainty (input : string) :
  some UNCERTAINTY_SIGNALS (normalize input) = mentionsAny UNCERTAINTY_SIGNALS input.
Proof. apply some_normalize, in_uncertainty. Qed.

Lemma some_urgency (input : string) :
  some URGENCY_HIGH_SIGNALS (normalize input) = mentionsAny URGENCY_HIGH_SIGNALS input.
Proof. apply some_normalize, in_urgency. Qed.

Lemma some_analytical (input : string) :
  some ANALYTICAL_SIGNALS (normalize input) = mentionsAny ANALYTICAL_SIGNALS input.
Proof. apply some_normalize, in_analytical. Qed.

(** A hedging word keeps the score at 0.7 or less, digits or not. *)
Lemma computeConfidence_hedged (text : string) (ctx : UIContext) :
  some UNCERTAINTY_SIGNALS text = true ->
  (computeConfidence text ctx <=? 0.7)%float = true
  /\ (computeConfidence text ctx <? CONFIDENCE_THRESHOLDS.expanded)%float = true.
Proof.
  intros Hu. unfold computeConfidence. rewrite Hu.
  destruct (some REFLECTIVE_SIGNALS text);
    destruct (5 <? backspaceCount (userProfile ctx))%Z;
    destruct (lastIntentChanged (userProfile ctx));
    destruct (testDigits text); vm_compute; split; reflexivity.
Qed.

(** The density as a function of the keywords of the normalised text. *)
Lemma density_of_signals (input : string) (ctx : UIContext) :
  density (assessIntent input ctx)
  = if some REFLECTIVE_SIGNALS (normalize input)
       || some UNCERTAINTY_SIGNALS (normalize input) then EXPANDED
    else if includes "!" (normalize input)
            || some URGENCY_HIGH_SIGNALS (normalize input) then MINIMAL
    else if some ANALYTICAL_SIGNALS (normalize input) then STANDARD
    else MINIMAL.
Proof.
  rewrite assessIntent_density. unfold detectIntentType, detectUrgency.
  destruct (some REFLECTIVE_SIGNALS (normalize input)) eqn:Hr; [reflexivity |].
  destruct (some UNCERTAINTY_SIGNALS (normalize input)) eqn:Hu.
  - destruct (computeConfidence_hedged (normalize input) ctx Hu) as [_ Hlow].
    unfold resolveDensity. rewrite Hlow.
    now destruct (some ANALYTICAL_SIGNALS (normalize input)).
  - destruct (computeConfidence_plain (normalize input) ctx Hu Hr) as [Hlow Hhigh].
    unfold resolveDensity. rewrite Hlow, Hhigh.
    destruct (includes "!" (normalize input));
      destruct (some URGENCY_HIGH_SIGNALS (normalize input));
      destruct (some ANALYTICAL_SIGNALS (normalize input)); reflexivity.
Qed.

End EngineTextFacts.

Section EngineMoreProperties.
Import JS Types Engine Vocabulary Notions EngineTest.

(** X1: the type, the urgency and the density of a result depend on the
    text alone: two contexts, whatever their profiles, density and
    history, get the same three answers.  The profile can only move the
    score and the number quoted in the reasoning. *)
Theorem classification_ignores_context (input : string) (c1 c2 : UIContext) :
  type (assessIntent input c1) = type (assessIntent input c2)
  /\ urgency (assessIntent input c1) = urgency (assessIntent input c2)
  /\ density (assessIntent input c1) = density (assessIntent input c2).
Proof.
  rewrite !assessIntent_type, !assessIntent_urgency, !density_of_signals.
  repeat split.
Qed.

(** X2: the density read off the input, letter case ignored: EXPANDED when
    a reflective or a hedging keyword occurs; otherwise MINIMAL when an
    exclamation mark or an urgency keyword occurs; otherwise STANDARD when
    an analytical keyword occurs; otherwise MINIMAL. *)
Theorem density_by_keywords (input : string) (ctx : UIContext) :
  density (assessIntent input ctx)
  = if mentionsAny REFLECTIVE_SIGNALS input
       || mentionsAny UNCERTAINTY_SIGNALS input then EXPANDED
    else if includes "!" input
            || mentionsAny URGENCY_HIGH_SIGNALS input then MINIMAL
    else if mentionsAny ANALYTICAL_SIGNALS input then STANDARD
    else MINIMAL.
Proof.
  rewrite density_of_signals.
  now rewrite some_reflective, some_uncertainty, some_urgency,
    some_analytical, bang_normalize.
Qed.

(** X3: a hedging keyword in an input without reflective keyword sends it
    to rule 2 under every context: the score is at most 0.7, digits in the
    text or not, the density is EXPANDED and the reasoning quotes the
    score against the threshold. *)
Theorem hedging_expands (input : string) (ctx : UIContext) (k : string) :
  In k UNCERTAINTY_SIGNALS ->
  mentions k input = true ->
  (forall r, In r REFLECTIVE_SIGNALS -> mentions r input = false) ->
  let r := assessIntent input ctx in
  (confidence r <=? 0.7)%float = true
  /\ density r = EXPANDED
  /\ reasoning r
     = "Confidence (" ++ toFixed2 (confidence r) ++ ") is below threshold (0.75)".
Proof.
  intros Hin Hm Hnor. cbv zeta.
  assert (Hu : some UNCERTAINTY_SIGNALS (normalize input) = true).
  { rewrite some_uncertainty. now apply (existsb_true_of_in _ _ k). }
  assert (Hr : some REFLECTIVE_SIGNALS (normalize input) = false).
  { rewrite some_reflective. now apply existsb_false_of_all. }
  destruct (computeConfidence_hedged (normalize input) ctx Hu) as [H07 Hlow].
  rewrite assessIntent_confidence, assessIntent_density, assessIntent_reasoning.
  unfold detectIntentType. rewrite Hr. unfold resolveDensity. rewrite Hlow.
  split; [exact H07 |].
  now destruct (some ANALYTICAL_SIGNALS (normalize input)).
Qed.

Lemma hedging_expands_witness :
  let r := assessIntent "I think I spent around 50 maybe" mockContext in
  density r = EXPANDED
  /\ reasoning r = "Confidence (0.70) is below threshold (0.75)".
Proof.
  cbv zeta.
  assert (Hin : In "maybe" UNCERTAINTY_SIGNALS) by (vm_compute; tauto).
  assert (Hnor : forall r, In r REFLECTIVE_SIGNALS ->
                   mentions r "I think I spent around 50 maybe" = false).
  { intros r Hr. vm_compute in Hr.
    repeat (destruct Hr as [<- | Hr]; [vm_compute; reflexivity |]).
    contradiction. }
  destruct (hedging_expands "I think I spent around 50 maybe" mockContext
              "maybe" Hin eq_refl Hnor) as [_ [Hd Hr]].
  split; [exact Hd |]. rewrite Hr. vm_compute. reflexivity.
Defined.

(** X4: every result has one of five shapes, one per rule.  A result
    that is not reflective has a score below 0.75 or of at least 0.8,
    never in between, so a confident ACTION always ends in MINIMAL and
    the default rule, the only source of STANDARD, is reached by
    ANALYTICAL requests of NORMAL urgency alone. *)
Theorem result_shape (input : string) (ctx : UIContext) :
  let r := assessIntent input ctx in
  (type r = REFLECTIVE /\ density r = EXPANDED
   /\ reasoning r = "User is seeking guidance (Reflective Intent)")
  \/ (type r <> REFLECTIVE
      /\ (confidence r <? CONFIDENCE_THRESHOLDS.expanded)%float = true
      /\ density r = EXPANDED
      /\ reasoning r
         = "Confidence (" ++ toFixed2 (confidence r)
             ++ ") is below threshold (0.75)")
  \/ (type r <> REFLECTIVE
      /\ (CONFIDENCE_THRESHOLDS.minimal <=? confidence r)%float = true
      /\ urgency r = HIGH /\ density r = MINIMAL
      /\ reasoning r = "High urgency detected - prioritizing speed")
  \/ (type r = ACTION
      /\ (CONFIDENCE_THRESHOLDS.minimal <=? confidence r)%float = true
      /\ urgency r = NORMAL /\ density r = MINIMAL
      /\ reasoning r
         = "Confidence (" ++ toFixed2 (confidence r) ++ ") is high for Action")
  \/ (type r = ANALYTICAL
      /\ (CONFIDENCE_THRESHOLDS.minimal <=? confidence r)%float = true
      /\ urgency r = NORMAL /\ density r = STANDARD
      /\ reasoning r = "Default density for balanced interaction").
Proof.
  cbv zeta.
  rewrite assessIntent_type, assessIntent_urgency, assessIntent_confidence,
    assessIntent_density, assessIntent_reasoning.
  unfold detectIntentType, detectUrgency.
  destruct (some REFLECTIVE_SIGNALS (normalize input)) eqn:Hr.
  { left. repeat split. }
  right.
  destruct (some UNCERTAINTY_SIGNALS (normalize input)) eqn:Hu.
  - left.
    destruct (computeConfidence_hedged (normalize input) ctx Hu) as [_ Hlow].
    unfold resolveDensity. rewrite Hlow.
    destruct (some ANALYTICAL_SIGNALS (normalize input));
      (split; [discriminate | split; [reflexivity | split; reflexivity]]).
  - right.
    destruct (computeConfidence_plain (normalize input) ctx Hu Hr) as [Hlow Hhigh].
    unfold resolveDensity. rewrite Hlow, Hhigh.
    destruct (includes "!" (normalize input)).
    { left. destruct (some ANALYTICAL_SIGNALS (normalize input));
        (split; [discriminate | repeat split]). }
    destruct (some URGENCY_HIGH_SIGNALS (normalize input)).
    { left. destruct (some ANALYTICAL_SIGNALS (normalize input));
        (split; [discriminate | repeat split]). }
    right.
    destruct (some ANALYTICAL_SIGNALS (normalize input)).
    + right. repeat split.
    + left. repeat split.
Qed.

(** X5: the urgency of a result is HIGH exactly when the input holds an
    exclamation mark or, letter case ignored, an urgency keyword, and
    NORMAL otherwise; the engine never answers LOW. *)
Theorem urgency_by_keywords (input : string) (ctx : UIContext) :
  urgency (assessIntent input ctx)
  = (if includes "!" input || mentionsAny URGENCY_HIGH_SIGNALS input
     then HIGH else NORMAL)
  /\ urgency (assessIntent input ctx) <> LOW.
Proof.
  rewrite assessIntent_urgency. unfold detectUrgency.
  rewrite bang_normalize, some_urgency.
  destruct (includes "!" input); destruct (mentionsAny URGENCY_HIGH_SIGNALS input);
    split; (reflexivity || discriminate).
Qed.

End EngineMoreProperties.

(* ===================================================================== *)
(** ** Normalisation of the input *)
(* ===================================================================== *)

Section NormalisationFacts.
Import JS Types Engine Vocabulary Notions.

Lemma lowerChar_idem (c : ascii) : lowerChar (lowerChar c) = lowerChar c.
Proof. destruct c as [[] [] [] [] [] [] [] []]; vm_compute; reflexivity. Qed.

Lemma isWhiteSpace_lowerChar (c : ascii) :
  isWhiteSpace (lowerChar c) = isWhiteSpace c.
Proof. destruct c as [[] [] [] [] [] [] [] []]; vm_compute; reflexivity. Qed.

Lemma toLowerCase_idem (s : string) : toLowerCase (toLowerCase s) = toLowerCase s.
Proof.
  induction s as [|c s IH]; [reflexivity |].
  simpl. now rewrite lowerChar_idem, IH.
Qed.

Lemma toLowerCase_trimStart (s : string) :
  toLowerCase (trimStart s) = trimStart (toLowerCase s).
Proof.
  induction s as [|c s IH]; [reflexivity |].
  simpl. rewrite isWhiteSpace_lowerChar.
  now destruct (isWhiteSpace c).
Qed.

Lemma toLowerCase_trimEnd (s : string) :
  toLowerCase (trimEnd s) = trimEnd (toLowerCase s).
Proof.
  induction s as [|c s IH]; [reflexivity |].
  simpl. rewrite <- IH, isWhiteSpace_lowerChar.
  destruct (trimEnd s); simpl; [now destruct (isWhiteSpace c) | reflexivity].
Qed.

(** Lower-casing and trimming can be done in either order. *)
Lemma toLowerCase_trim (s : string) : toLowerCase (trim s) = trim (toLowerCase s).
Proof. unfold trim. now rewrite toLowerCase_trimEnd, toLowerCase_trimStart. Qed.

Lemma trimStart_head (s : string) :
  trimStart s = EmptyString \/ firstNonWs (trimStart s) = true.
Proof.
  induction s as [|c s IH]; [now left |].
  simpl. destruct (isWhiteSpace c) eqn:E; [exact IH |].
  right. simpl. now rewrite E.
Qed.

Lemma trimStart_fixed (t : string) :
  t = EmptyString \/ firstNonWs t = true -> trimStart t = t.
Proof.
  intros [-> | H]; [reflexivity |].
  destruct t as [|c t]; [reflexivity |].
  simpl in *. apply negb_true_iff in H. now rewrite H.
Qed.

Lemma trimEnd_head (t : string) :
  firstNonWs t = true -> firstNonWs (trimEnd t) = true.
Proof.
  destruct t as [|c t]; [discriminate |].
  simpl. intros H. apply negb_true_iff in H. rewrite H.
  destruct (trimEnd t); simpl; now rewrite H.
Qed.

Lemma trimEnd_idem (s : string) : trimEnd (trimEnd s) = trimEnd s.
Proof.
  induction s as [|c s IH]; [reflexivity |].
  simpl. destruct (trimEnd s) as [|a u] eqn:E.
  - destruct (isWhiteSpace c) eqn:Ec; [reflexivity |].
    simpl. now rewrite Ec.
  - rewrite trimEnd_cons by (rewrite IH; discriminate).
    now rewrite IH.
Qed.

Lemma trim_idem (s : string) : trim (trim s) = trim s.
Proof.
  unfold trim.
  rewrite (trimStart_fixed (trimEnd (trimStart s))).
  - apply trimEnd_idem.
  - destruct (trimStart_head s) as [-> | H]; [now left |].
    right. now apply trimEnd_head.
Qed.

Lemma normalize_idem (input : string) :
  normalize (normalize input) = normalize input.
Proof.
  unfold normalize. now rewrite toLowerCase_trim, toLowerCase_idem, trim_idem.
Qed.

Lemma trimStart_pad (pad s : string) :
  allWhiteSpace pad = true -> trimStart (pad ++ s) = trimStart s.
Proof.
  induction pad as [|c pad IH]; [reflexivity |].
  simpl. intros H. apply andb_true_iff in H as [-> H]. now apply IH.
Qed.

Lemma trimEnd_all_space (pad : string) :
  allWhiteSpace pad = true -> trimEnd pad = EmptyString.
Proof.
  induction pad as [|c pad IH]; [reflexivity |].
  simpl. intros H. apply andb_true_iff in H as [-> H]. now rewrite IH.
Qed.

Lemma trimEnd_pad (s pad : string) :
  allWhiteSpace pad = true -> trimEnd (s ++ pad) = trimEnd s.
Proof.
  intros H. induction s as [|c s IH].
  - simpl. now rewrite trimEnd_all_space.
  - simpl. now rewrite IH.
Qed.

Lemma trimEnd_trimStart (s : string) :
  trimEnd (trimStart s) = trimStart (trimEnd s).
Proof.
  induction s as [|c s IH]; [reflexivity |].
  cbn [trimStart].
  destruct (isWhiteSpace c) eqn:Ec.
  - rewrite IH. cbn [trimEnd]. rewrite Ec.
    destruct (trimEnd s) as [|a u]; [reflexivity |].
    cbn [trimStart]. now rewrite Ec.
  - symmetry. apply trimStart_fixed. right. apply trimEnd_head.
    simpl. now rewrite Ec.
Qed.

Lemma allWhiteSpace_lower (pad : string) :
  allWhiteSpace (toLowerCase pad) = allWhiteSpace pad.
Proof.
  induction pad as [|c pad IH]; [reflexivity |].
  simpl. now rewrite isWhiteSpace_lowerChar, IH.
Qed.

(** White space around the input disappears in the normalisation. *)
Lemma normalize_pad (pad1 pad2 input : string) :
  allWhiteSpace pad1 = true -> allWhiteSpace pad2 = true ->
  normalize (pad1 ++ input ++ pad2) = normalize input.
Proof.
  intros H1 H2. unfold normalize, trim.
  rewrite !toLowerCase_app.
  rewrite trimStart_pad by now rewrite allWhiteSpace_lower.
  rewrite !trimEnd_trimStart.
  now rewrite trimEnd_pad by now rewrite allWhiteSpace_lower.
Qed.

(** What a result says about the text hangs on the normalised text. *)
Lemma assessIntent_normalized (a b : string) (ctx : UIContext) :
  normalize a = normalize b ->
  type (assessIntent a ctx) = type (assessIntent b ctx)
  /\ confidence (assessIntent a ctx) = confidence (assessIntent b ctx)
  /\ urgency (assessIntent a ctx) = urgency (assessIntent b ctx)
  /\ density (assessIntent a ctx) = density (assessIntent b ctx)
  /\ reasoning (assessIntent a ctx) = reasoning (assessIntent b ctx).
Proof.
  intros H.
  rewrite !assessIntent_type, !assessIntent_confidence, !assessIntent_urgency,
    !assessIntent_density, !assessIntent_reasoning, H.
  repeat split.
Qed.

End NormalisationFacts.

Section NormalisationProperties.
Import JS Types Engine Vocabulary Notions EngineTest.

(** X6: normalising is idempotent, so submitting the normalised form of
    an input (lower-cased and trimmed) gives the intent, score, urgency,
    density and reasoning of the input itself. *)
Theorem normalized_input_same_result (input : string) (ctx : UIContext) :
  let r := assessIntent input ctx in
  let r' := assessIntent (normalize input) ctx in
  normalize (normalize input) = normalize input
  /\ type r' = type r /\ confidence r' = confidence r
  /\ urgency r' = urgency r /\ density r' = density r
  /\ reasoning r' = reasoning r.
Proof.
  cbv zeta. split; [apply normalize_idem |].
  apply assessIntent_normalized, normalize_idem.
Qed.

(** X7: white space before and after the input (blanks, tabs, line
    breaks, no-break spaces) never changes the intent, score, urgency,
    density or reasoning. *)
Theorem surrounding_space_ignored
    (pad1 pad2 input : string) (ctx : UIContext) :
  allWhiteSpace pad1 = true -> allWhiteSpace pad2 = true ->
  let r := assessIntent input ctx in
  let r' := assessIntent (pad1 ++ input ++ pad2) ctx in
  type r' = type r /\ confidence r' = confidence r
  /\ urgency r' = urgency r /\ density r' = density r
  /\ reasoning r' = reasoning r.
Proof.
  intros H1 H2. cbv zeta. now apply assessIntent_normalized, normalize_pad.
Qed.

Lemma surrounding_space_ignored_witness :
  density (assessIntent "  Show my spending chart " mockContext) = STANDARD.
Proof.
  destruct (surrounding_space_ignored "  " " " "Show my spending chart"
              mockContext eq_refl eq_refl) as [_ [_ [_ [Hd _]]]].
  cbn [append] in Hd. rewrite Hd. vm_compute. reflexivity.
Defined.

End NormalisationProperties.

(* ===================================================================== *)
(** ** More on the density tracker *)
(* ===================================================================== *)

Section TrackerMoreFacts.
Import JS Types Vocabulary Notions.
Import DensityContext.

Lemma run_cons (a : Action) (acts : list Action) (s : State) :
  run (a :: acts) s = run acts (step a s).
Proof. reflexivity. Qed.

Lemma countActions_cons (f : Action -> bool) (a : Action) (acts : list Action) :
  countActions f (a :: acts)
  = ((if f a then 1 else 0) + countActions f acts)%Z.
Proof.
  unfold countActions. simpl. destruct (f a); simpl List.length; lia.
Qed.

Lemma step_keeps_or_clears (a : Action) (s : State) (d : UIDensity) :
  isSetManualOverride a = false ->
  manualOverride (step a s) = Some d -> manualOverride s = Some d.
Proof.
  destruct a as [text | d' |]; [| discriminate |]; intros _; simpl.
  - unfold activeOverride. destruct (manualOverride s) as [d0|]; [| discriminate].
    destruct (lastIntent s); [| easy].
    now destruct (negb _).
  - now destruct (manualOverride s).
Qed.

(** The profile after a run, counted from the profile before it. *)
Lemma run_profile (acts : list Action) (s : State) :
  let p := DensityContext.userProfile s in
  let p' := DensityContext.userProfile (run acts s) in
  interactionsThisSession p'
  = (interactionsThisSession p + countActions isProcessInput acts)%Z
  /\ successfulActions p'
     = (successfulActions p + countActions isRecordSuccess acts)%Z
  /\ backspaceCount p' = backspaceCount p
  /\ lastIntentChanged p' = lastIntentChanged p.
Proof.
  cbv zeta. revert s. induction acts as [|a acts IH]; intros s.
  - unfold countActions. simpl. repeat split; lia.
  - rewrite run_cons, !countActions_cons.
    destruct (IH (step a s)) as [Hi [Hs [Hb Hl]]].
    rewrite Hi, Hs, Hb, Hl.
    generalize (countActions isProcessInput acts) as n1.
    generalize (countActions isRecordSuccess acts) as n2.
    intros n2 n1. destruct a; cbn -[Z.add]; repeat split; (lia || reflexivity).
Qed.

(** The engine answers from a reachable state as from the initial one. *)
Lemma reachable_result (s : State) (text : string) :
  reachable s ->
  Engine.assessIntent text (buildContext s)
  = Engine.assessIntent text (buildContext initialState).
Proof.
  intros H. destruct (reachable_behavioural_fields s H) as [Hb Hl].
  apply assessIntent_ext; cbn; [now rewrite Hb | now rewrite Hl].
Qed.

Lemma step_pair_explained (a : Action) (s : State) :
  shownPairExplained s -> shownPairExplained (step a s).
Proof.
  intros H. destruct a as [text | d |].
  - unfold shownPairExplained. simpl.
    destruct (activeOverride s _) as [d|].
    + right; right; left. reflexivity.
    + right; right; right. eexists. repeat split.
  - right; left. reflexivity.
  - exact H.
Qed.

End TrackerMoreFacts.

Section TrackerMoreProperties.
Import JS Types Vocabulary Notions.
Import DensityContext.

(** X8: only [setManualOverride] can put an override in place: along a
    run of [processInput] and [recordSuccess] calls an override that is
    active at the end was active, with the same value, at the start.  In
    particular no override appears where there was none. *)
Theorem override_only_set_by_user
    (acts : list Action) (s : State) (d : UIDensity) :
  forallb (fun a => negb (isSetManualOverride a)) acts = true ->
  manualOverride (run acts s) = Some d ->
  manualOverride s = Some d.
Proof.
  revert s. induction acts as [|a acts IH]; intros s Hno Hend; [exact Hend |].
  simpl in Hno. apply andb_true_iff in Hno as [Ha Hno].
  apply negb_true_iff in Ha.
  rewrite run_cons in Hend.
  apply (step_keeps_or_clears a s d Ha). now apply IH.
Qed.

Lemma override_only_set_by_user_witness :
  let s := handleManualOverride EXPANDED initialState in
  let acts := [ProcessInput "Add 10 food"; ProcessInput "Log 5 coffee"] in
  manualOverride (run acts s) = Some EXPANDED
  /\ manualOverride s = Some EXPANDED.
Proof.
  cbv zeta.
  assert (H : manualOverride
                (run [ProcessInput "Add 10 food"; ProcessInput "Log 5 coffee"]
                   (handleManualOverride EXPANDED initialState))
              = Some EXPANDED) by (vm_compute; reflexivity).
  split; [exact H |].
  exact (override_only_set_by_user
           [ProcessInput "Add 10 food"; ProcessInput "Log 5 coffee"]
           (handleManualOverride EXPANDED initialState) EXPANDED eq_refl H).
Defined.

(** X9: an override set before the first input of a session survives
    that input whatever it says: with no stored result there is nothing
    to compare the new intent with, so even a reflective question is
    shown at the overridden density. *)
Theorem override_survives_first_input
    (s : State) (d : UIDensity) (text : string) :
  lastIntent s = None ->
  manualOverride s = Some d ->
  manualOverride (processInput text s) = Some d
  /\ currentDensity (processInput text s) = d
  /\ why (processInput text s)
     = "Manual Override Active (User preferred " ++ UIDensity_toString d ++ ")".
Proof.
  intros Hlast Hov. unfold currentDensity, why, processInput, activeOverride.
  rewrite Hlast, Hov. cbn. repeat split.
Qed.

Lemma override_survives_first_input_witness :
  let s := processInput "Why am I broke"
             (handleManualOverride MINIMAL initialState) in
  option_map Types.type (lastIntent s) = Some REFLECTIVE
  /\ currentDensity s = MINIMAL
  /\ why s = "Manual Override Active (User preferred MINIMAL)".
Proof.
  cbv zeta.
  destruct (override_survives_first_input
              (handleManualOverride MINIMAL initialState) MINIMAL
              "Why am I broke" eq_refl eq_refl) as [_ [Hd Hw]].
  split; [vm_compute; reflexivity |]. split; [exact Hd | exact Hw].
Defined.

(** X10: with a stored result, [processInput] keeps an active override
    exactly when the new intent type is the type of the stored result;
    it then shows the override.  When the type differs the override is
    cleared and the density and reasoning of the engine are shown. *)
Theorem override_decay_rule
    (s : State) (d : UIDensity) (last : IntentResult) (text : string) :
  lastIntent s = Some last ->
  manualOverride s = Some d ->
  let r := Engine.assessIntent text (buildContext s) in
  (type r = type last ->
   manualOverride (processInput text s) = Some d
   /\ currentDensity (processInput text s) = d)
  /\ (type r <> type last ->
      manualOverride (processInput text s) = None
      /\ currentDensity (processInput text s) = Types.density r
      /\ why (processInput text s) = Types.reasoning r).
Proof.
  intros Hlast Hov. cbv zeta.
  unfold currentDensity, why, processInput, activeOverride.
  rewrite Hlast, Hov. cbn. split.
  - intros ->. rewrite IntentType_eqb_refl. cbn. split; reflexivity.
  - intros Hne.
    destruct (IntentType_eqb _ _) eqn:E; cbn; [| repeat split].
    exfalso. apply Hne.
    destruct (type (Engine.assessIntent text (buildContext s))), (type last);
      (reflexivity || discriminate).
Qed.

Lemma override_decay_rule_witness :
  let s := run [ProcessInput "Add 10 food"; SetManualOverride STANDARD]
             initialState in
  currentDensity (processInput "Log 5 coffee" s) = STANDARD
  /\ manualOverride (processInput "Why am I broke" s) = None
  /\ currentDensity (processInput "Why am I broke" s) = EXPANDED.
Proof.
  cbv zeta.
  pose proof (fun text =>
    override_decay_rule
      (run [ProcessInput "Add 10 food"; SetManualOverride STANDARD] initialState)
      STANDARD
      (Engine.assessIntent "Add 10 food" (buildContext initialState))
      text eq_refl eq_refl) as H.
  cbv zeta in H.
  destruct (H "Log 5 coffee") as [Hsame _].
  destruct (H "Why am I broke") as [_ Hdiff].
  split; [apply Hsame; vm_compute; reflexivity |].
  destruct Hdiff as [Ho [Hd _]]; [vm_compute; discriminate |].
  split; [exact Ho |]. rewrite Hd. vm_compute. reflexivity.
Defined.

(** X11: an override rides out any run of inputs of one intent type:
    when the stored result, if there is one, has type [T] and every text
    of the run is classified [T], the override is still active after the
    run and, the run not being empty, it is the density shown. *)
Theorem override_kept_over_same_type
    (texts : list string) (T : IntentType) (s : State) (d : UIDensity) :
  manualOverride s = Some d ->
  (forall last, lastIntent s = Some last -> type last = T) ->
  (forall t, In t texts ->
     Engine.detectIntentType (Engine.normalize t) = T) ->
  let s' := run (map ProcessInput texts) s in
  manualOverride s' = Some d
  /\ (texts <> [] -> currentDensity s' = d).
Proof.
  cbv zeta. revert s.
  induction texts as [|t texts IH]; intros s Hov Hlast Hall.
  - split; [exact Hov | congruence].
  - cbn [map]. rewrite run_cons. cbn [step].
    assert (Ht : type (Engine.assessIntent t (buildContext s)) = T).
    { rewrite assessIntent_type. apply Hall. now left. }
    assert (Hact : activeOverride s (Engine.assessIntent t (buildContext s))
                   = Some d).
    { unfold activeOverride. rewrite Hov.
      destruct (lastIntent s) as [last|] eqn:El; [| reflexivity].
      rewrite Ht, (Hlast last eq_refl), IntentType_eqb_refl. reflexivity. }
    assert (Hov' : manualOverride (processInput t s) = Some d) by exact Hact.
    assert (Hd' : currentDensity (processInput t s) = d).
    { unfold currentDensity, processInput. cbn. now rewrite Hact. }
    destruct (IH (processInput t s) Hov') as [Hfin Hshow].
    + intros last Hl. cbn in Hl. injection Hl as <-. exact Ht.
    + intros t' Ht'. apply Hall. now right.
    + split; [exact Hfin |]. intros _.
      destruct texts as [|t2 texts]; [exact Hd' | apply Hshow; discriminate].
Qed.

Lemma override_kept_over_same_type_witness :
  let s := handleManualOverride EXPANDED initialState in
  let s' := run (map ProcessInput ["Add 10 food"; "Log 5 coffee"; "Delete it"]) s in
  manualOverride s' = Some EXPANDED /\ currentDensity s' = EXPANDED.
Proof.
  cbv zeta.
  destruct (override_kept_over_same_type
              ["Add 10 food"; "Log 5 coffee"; "Delete it"] ACTION
              (handleManualOverride EXPANDED initialState) EXPANDED eq_refl)
    as [Ho Hd].
  - intros last Hl. discriminate.
  - intros t Ht. simpl in Ht.
    repeat (destruct Ht as [<- | Ht]; [vm_compute; reflexivity |]).
    contradiction.
  - split; [exact Ho | apply Hd; discriminate].
Defined.

(** X12: in every state of a session the pair shown (density, reasoning)
    is the initial pair, or the reasoning is that of a manual override
    just made, or it names the kept override whose density is shown, or
    the pair is the one of the stored result. *)
Theorem shown_pair_explained (acts : list Action) :
  shownPairExplained (run acts initialState).
Proof.
  induction (reachable_run acts) as [|a s _ IH].
  - left. split; reflexivity.
  - now apply step_pair_explained.
Qed.

(** X13: the profile of a session counts its actions: the interaction
    count is the number of [processInput] calls so far, the success count
    the number of [recordSuccess] calls, and the back-space count is
    still 0. *)
Theorem profile_counts_actions (acts : list Action) :
  let p := DensityContext.userProfile (run acts initialState) in
  interactionsThisSession p = countActions isProcessInput acts
  /\ successfulActions p = countActions isRecordSuccess acts
  /\ backspaceCount p = 0%Z.
Proof.
  cbv zeta. destruct (run_profile acts initialState) as [Hi [Hs [Hb _]]].
  rewrite Hi, Hs, Hb. cbn. repeat split.
Qed.

(** X14: within a session the result stored for a text does not depend
    on what came before: after any actions, [processInput text] stores
    the result the engine gives for [text] at the start of the session,
    free of both behavioural penalties. *)
Theorem stored_result_by_text_alone (acts : list Action) (text : string) :
  lastIntent (run (acts ++ [ProcessInput text])%list initialState)
  = Some (Engine.assessIntent text (buildContext initialState)).
Proof.
  rewrite run_snoc. cbn [step]. unfold processInput. cbn [lastIntent].
  f_equal. apply reachable_result, reachable_run.
Qed.

End TrackerMoreProperties.

(* ===================================================================== *)
(** ** The older classifier *)
(* ===================================================================== *)

Section LegacyFacts.
Import JS Types Vocabulary Notions.
Import Legacy LegacyClassifier.

Lemma digitsPlus_head (k : string -> bool) (s : string) :
  (forall t, k t = true) ->
  digitsPlus k s = match s with
                   | String c _ => isDigit c
                   | EmptyString => false
                   end.
Proof.
  intros Hk. destruct s as [|c t]; [reflexivity |].
  simpl. now rewrite Hk, orb_true_r, andb_true_r.
Qed.

Lemma head_digit_tests (s : string) :
  match s with
  | String c _ => isDigit c
  | EmptyString => false
  end = true -> testDigits s = true.
Proof. destruct s as [|c t]; [discriminate |]. simpl. now intros ->. Qed.

Lemma legacy_signals_ok :
  forallb signalOk
    (Legacy.REFLECTIVE_SIGNALS ++ ACTION_SIGNALS ++ Legacy.ANALYTICAL_SIGNALS
       ++ UNCERTAINTY_SIGNALS ++ EMOTIONAL_SIGNALS)%list = true.
Proof. vm_compute. reflexivity. Qed.

Lemma legacy_some (ks : list string) (input : string) :
  forallb signalOk ks = true ->
  some ks (Engine.normalize input) = mentionsAny ks input.
Proof.
  unfold some, mentionsAny. induction ks as [|k ks IH]; [reflexivity |].
  simpl. intros H. apply andb_true_iff in H as [Hk H].
  now rewrite includes_normalize, IH.
Qed.

Lemma mapToUIDensity_table (t : IntentType) (c : ConfidenceLevel) :
  mapToUIDensity t c
  = match c, t with
    | CONFIDENT, ACTION => MINIMAL
    | CONFIDENT, ANALYTICAL => STANDARD
    | _, _ => EXPANDED
    end.
Proof. now destruct t, c. Qed.

(** The pattern [/\$?\d+(\.\d{1,2})?/] matches somewhere in a text
    exactly when the text holds a digit. *)
Lemma test_numberPattern (text : string) :
  test numberPattern text = testDigits text.
Proof.
  assert (Hk : forall t, optional fraction12 (fun _ => true) t = true).
  { intros t. unfold optional. apply orb_true_r. }
  induction text as [|c t IH]; [reflexivity |].
  cbn [test testDigits]. rewrite IH.
  unfold numberPattern, optional, dollar.
  rewrite !(digitsPlus_head _ _ Hk).
  destruct (isDigit c); [now rewrite orb_true_r |].
  rewrite orb_false_r, orb_false_l.
  destruct (Ascii.eqb c "$"); [| reflexivity]. simpl.
  destruct (testDigits t) eqn:Et; [now rewrite orb_true_r |].
  rewrite orb_false_r.
  destruct (match t with String c0 _ => isDigit c0 | EmptyString => false end)
    eqn:Eh; [| reflexivity].
  apply head_digit_tests in Eh. congruence.
Qed.

(** The confidence level of the older classifier on a normalised input,
    in terms of the raw input. *)
Lemma detectConfidenceLevel_normalize (userInput : string) :
  detectConfidenceLevel (Engine.normalize userInput)
  = if mentionsAny EMOTIONAL_SIGNALS userInput then EMOTIONAL
    else if mentionsAny UNCERTAINTY_SIGNALS userInput then UNCERTAIN
    else if testDigits userInput
            || (String.length (Engine.normalize userInput) <? 30)%nat
         then CONFIDENT
    else UNCERTAIN.
Proof.
  unfold detectConfidenceLevel.
  rewrite !legacy_some by (vm_compute; reflexivity).
  rewrite test_numberPattern, testDigits_normalize.
  destruct (mentionsAny EMOTIONAL_SIGNALS userInput); [reflexivity |].
  destruct (mentionsAny UNCERTAINTY_SIGNALS userInput); [reflexivity |].
  now destruct (testDigits userInput).
Qed.

Lemma detectIntentType_normalize (userInput : string) :
  detectIntentType (Engine.normalize userInput)
  = if mentionsAny Legacy.REFLECTIVE_SIGNALS userInput then REFLECTIVE
    else if mentionsAny ACTION_SIGNALS userInput then ACTION
    else if mentionsAny Legacy.ANALYTICAL_SIGNALS userInput then ANALYTICAL
    else ACTION.
Proof.
  unfold detectIntentType.
  now rewrite !legacy_some by (vm_compute; reflexivity).
Qed.

Lemma classifyIntent_fields (userInput : string) :
  intentType (classifyIntent userInput)
  = detectIntentType (Engine.normalize userInput)
  /\ confidenceLevel (classifyIntent userInput)
     = detectConfidenceLevel (Engine.normalize userInput)
  /\ uiDensity (classifyIntent userInput)
     = mapToUIDensity (detectIntentType (Engine.normalize userInput))
         (detectConfidenceLevel (Engine.normalize userInput)).
Proof. repeat split. Qed.

End LegacyFacts.

Section LegacyProperties.
Import JS Types Vocabulary Notions.
Import Legacy LegacyClassifier.

(** X15: the number pattern of the older classifier,
    [/\$?\d+(\.\d{1,2})?/], finds a match in a text exactly when the text
    holds a decimal digit: the optional dollar sign and the optional
    fraction never decide.  As normalising keeps the digits, the test the
    classifier runs on the normalised input is the digit test on the raw
    input. *)
Theorem number_pattern_is_digit_test (userInput : string) :
  test numberPattern userInput = testDigits userInput
  /\ test numberPattern (trim (toLowerCase userInput)) = testDigits userInput.
Proof.
  split; [apply test_numberPattern |].
  rewrite test_numberPattern. apply testDigits_normalize.
Qed.

(** X16: the confidence level of the older classifier read off the
    input: EMOTIONAL when an emotional keyword occurs, else UNCERTAIN when
    a hedging keyword occurs, else CONFIDENT when the input holds a digit
    or its normalised form is shorter than 30 characters, else UNCERTAIN:
    a plain request of 30 characters or more counts as uncertain. *)
Theorem legacy_confidence_by_text (userInput : string) :
  confidenceLevel (classifyIntent userInput)
  = if mentionsAny EMOTIONAL_SIGNALS userInput then EMOTIONAL
    else if mentionsAny UNCERTAINTY_SIGNALS userInput then UNCERTAIN
    else if testDigits userInput
            || (String.length (Engine.normalize userInput) <? 30)%nat
         then CONFIDENT
    else UNCERTAIN.
Proof.
  destruct (classifyIntent_fields userInput) as [_ [-> _]].
  apply detectConfidenceLevel_normalize.
Qed.

(** X17: in the older classifier the three keyword lists are consulted
    in the order reflective, action, analytical, over the input with
    letter case ignored; an action keyword therefore beats an analytical
    one, and an input without any keyword is an ACTION. *)
Theorem legacy_intent_by_text (userInput : string) :
  intentType (classifyIntent userInput)
  = if mentionsAny Legacy.REFLECTIVE_SIGNALS userInput then REFLECTIVE
    else if mentionsAny ACTION_SIGNALS userInput then ACTION
    else if mentionsAny Legacy.ANALYTICAL_SIGNALS userInput then ANALYTICAL
    else ACTION.
Proof.
  destruct (classifyIntent_fields userInput) as [-> _].
  apply detectIntentType_normalize.
Qed.

(** X18: the density of the older classifier is EXPANDED unless the
    confidence level is CONFIDENT and the intent is ACTION (MINIMAL) or
    ANALYTICAL (STANDARD); the closing default of [mapToUIDensity] is
    never reached.  Every input that mentions a reflective, a hedging or
    an emotional keyword of the older lists is therefore EXPANDED. *)
Theorem legacy_density_table (userInput : string) :
  let c := classifyIntent userInput in
  uiDensity c
  = match confidenceLevel c, intentType c with
    | CONFIDENT, ACTION => MINIMAL
    | CONFIDENT, ANALYTICAL => STANDARD
    | _, _ => EXPANDED
    end
  /\ (mentionsAny Legacy.REFLECTIVE_SIGNALS userInput
      || mentionsAny UNCERTAINTY_SIGNALS userInput
      || mentionsAny EMOTIONAL_SIGNALS userInput = true ->
      uiDensity c = EXPANDED).
Proof.
  cbv zeta. destruct (classifyIntent_fields userInput) as [-> [-> ->]].
  split; [apply mapToUIDensity_table |].
  intros H.
  rewrite mapToUIDensity_table, detectConfidenceLevel_normalize,
    detectIntentType_normalize.
  destruct (mentionsAny EMOTIONAL_SIGNALS userInput); [reflexivity |].
  destruct (mentionsAny UNCERTAINTY_SIGNALS userInput); [reflexivity |].
  destruct (mentionsAny Legacy.REFLECTIVE_SIGNALS userInput); [| discriminate].
  now destruct (testDigits userInput || _).
Qed.

(** X19: the two classifiers part on long plain requests.  An input of
    30 normalised characters or more, without a digit and without any
    hedging, emotional or reflective keyword of either engine, is
    EXPANDED for the older classifier, which drives the badge of the
    interface, and never EXPANDED for the engine behind the density
    context. *)
Theorem classifiers_part_on_long_plain_text
    (userInput : string) (ctx : UIContext) :
  mentionsAny EMOTIONAL_SIGNALS userInput = false ->
  mentionsAny UNCERTAINTY_SIGNALS userInput = false ->
  mentionsAny Engine.REFLECTIVE_SIGNALS userInput = false ->
  mentionsAny Engine.UNCERTAINTY_SIGNALS userInput = false ->
  testDigits userInput = false ->
  (30 <= String.length (Engine.normalize userInput))%nat ->
  uiDensity (classifyIntent userInput) = EXPANDED
  /\ density (Engine.assessIntent userInput ctx) <> EXPANDED.
Proof.
  intros He Hu Hr2 Hu2 Hd Hlen. split.
  - destruct (classifyIntent_fields userInput) as [_ [_ ->]].
    rewrite mapToUIDensity_table, detectConfidenceLevel_normalize, He, Hu, Hd.
    replace (String.length (Engine.normalize userInput) <? 30)%nat with false
      by (symmetry; apply Nat.ltb_ge; exact Hlen).
    reflexivity.
  - rewrite density_of_signals, some_reflective, some_uncertainty, Hr2, Hu2.
    cbn [orb].
    destruct (includes "!" (Engine.normalize userInput)
              || some Engine.URGENCY_HIGH_SIGNALS (Engine.normalize userInput));
      [discriminate |].
    destruct (some Engine.ANALYTICAL_SIGNALS (Engine.normalize userInput));
      discriminate.
Qed.

Lemma classifiers_part_on_long_plain_text_witness :
  let text := "Show my spending breakdown for the last month" in
  uiDensity (classifyIntent text) = EXPANDED
  /\ density (Engine.assessIntent text EngineTest.mockContext) = STANDARD.
Proof.
  cbv zeta.
  destruct (classifiers_part_on_long_plain_text
              "Show my spending breakdown for the last month"
              EngineTest.mockContext eq_refl eq_refl eq_refl eq_refl eq_refl)
    as [H _].
  - vm_compute. repeat constructor.
  - split; [exact H | vm_compute; reflexivity].
Defined.

(** X20: each of the five locked demo prompts of the interface is given
    the density written next to it, by the older classifier and, under
    every context, by the engine. *)
Theorem demo_prompts_get_declared_density
    (text : string) (d : UIDensity) (ctx : UIContext) :
  In (text, d) ZeroUI.DEMO_PROMPTS ->
  uiDensity (classifyIntent text) = d
  /\ density (Engine.assessIntent text ctx) = d.
Proof.
  intros Hin. unfold ZeroUI.DEMO_PROMPTS in Hin. simpl in Hin.
  repeat (destruct Hin as [Heq | Hin];
          [injection Heq as <- <-; split;
           [vm_compute; reflexivity
           | rewrite density_of_signals; vm_compute; reflexivity] |]).
  contradiction.
Qed.

Lemma demo_prompts_get_declared_density_witness :
  uiDensity (classifyIntent "I think I'm overspending") = EXPANDED
  /\ density (Engine.assessIntent "I think I'm overspending"
                EngineTest.hesitantContext) = EXPANDED.
Proof.
  apply demo_prompts_get_declared_density.
  simpl. right; right; right; left. reflexivity.
Defined.

End LegacyProperties.

(* ===================================================================== *)
(** ** Reading an expense off a message *)
(* ===================================================================== *)

Section ExpenseInputFacts.
Import JS Vocabulary Notions ExpenseInput.

Lemma firstCategory_none (entries : list (string * list string)) (t : string) :
  firstCategory entries t = None
  <-> forall cat kws, In (cat, kws) entries -> some kws t = false.
Proof.
  induction entries as [|[c ks] entries IH]; simpl.
  - split; [intros _ cat kws [] | reflexivity].
  - destruct (some ks t) eqn:E.
    + split; [discriminate |]. intros H.
      rewrite (H c ks (or_introl eq_refl)) in E. discriminate.
    + rewrite IH. split.
      * intros H cat kws [Heq | Hin]; [now injection Heq as <- <- | now apply (H cat kws)].
      * intros H cat kws Hin. apply (H cat kws). now right.
Qed.

Lemma firstCategory_some (entries : list (string * list string))
    (t cat : string) :
  firstCategory entries t = Some cat ->
  exists kws, In (cat, kws) entries /\ some kws t = true.
Proof.
  induction entries as [|[c ks] entries IH]; simpl; [discriminate |].
  destruct (some ks t) eqn:E.
  - intros H. injection H as <-. exists ks. split; [now left | exact E].
  - intros H. destruct (IH H) as [kws [Hin Hs]]. exists kws. split; [now right | exact Hs].
Qed.

Lemma firstCategory_priority (pre post : list (string * list string))
    (cat : string) (kws : list string) (t : string) :
  (forall c ks, In (c, ks) pre -> some ks t = false) ->
  some kws t = true ->
  firstCategory (pre ++ (cat, kws) :: post)%list t = Some cat.
Proof.
  induction pre as [|[c ks] pre IH]; simpl; intros Hpre Hk.
  - now rewrite Hk.
  - rewrite (Hpre c ks (or_introl eq_refl)). apply IH; [| exact Hk].
    intros c' ks' Hin. apply (Hpre c' ks'). now right.
Qed.

Lemma takeDigits_run (ds rest : string) :
  allDigits ds = true -> headDigit rest = false ->
  takeDigits (ds ++ rest) = ds /\ dropDigits (ds ++ rest) = rest.
Proof.
  intros Hds Hrest. induction ds as [|c ds IH]; [discriminate |].
  destruct ds as [|c2 ds].
  - simpl in Hds. simpl. rewrite Hds.
    destruct rest as [|r rest]; [now split |].
    simpl in Hrest. simpl. rewrite Hrest. now split.
  - cbn [allDigits] in Hds. apply andb_true_iff in Hds as [Hc Hds].
    destruct (IH Hds) as [Ht Hd].
    change (String c (String c2 ds) ++ rest)
      with (String c (String c2 ds ++ rest)).
    cbn [takeDigits dropDigits]. rewrite Hc, Ht, Hd. now split.
Qed.

Lemma allDigits_nonempty (ds : string) : allDigits ds = true -> ds <> EmptyString.
Proof. destruct ds; [discriminate | discriminate]. Qed.

Lemma matchAmountAt_none (s : string) :
  matchAmountAt s = None <-> headDigit s = false.
Proof.
  unfold matchAmountAt. destruct s as [|c t]; [now split |].
  simpl. destruct (isDigit c) eqn:E; [| now split].
  split; [| discriminate].
  destruct (dropDigits t) as [|d r]; [discriminate |].
  destruct (Ascii.eqb d "."); [| discriminate].
  destruct (takeDigits r); discriminate.
Qed.

(** The search skips a prefix without digits. *)
Lemma amountMatch_skip (pre s : string) :
  testDigits pre = false -> amountMatch (pre ++ s) = amountMatch s.
Proof.
  induction pre as [|c pre IH]; [reflexivity |].
  simpl testDigits. intros H. apply orb_false_iff in H as [Hc Hpre].
  change (String c pre ++ s) with (String c (pre ++ s)).
  cbn [amountMatch].
  replace (matchAmountAt (String c (pre ++ s))) with (@None string)
    by (symmetry; apply matchAmountAt_none; exact Hc).
  now apply IH.
Qed.

Lemma amountMatch_head (s : string) (m : string) :
  matchAmountAt s = Some m -> amountMatch s = Some m.
Proof. intros H. destruct s; cbn [amountMatch]; now rewrite H. Qed.

End ExpenseInputFacts.

Section ExpenseInputProperties.
Import JS Vocabulary Notions ExpenseInput.

(** X21: [extractFromText] detects no category exactly when no keyword of
    the table occurs in the text, letter case ignored.  A detected
    category is one of the six names of the table, never "Other", and one
    of its keywords occurs in the text. *)
Theorem category_detected_iff (text : string) :
  (detectedCategory text = None
   <-> forall cat kws k, In (cat, kws) categoryKeywords -> In k kws ->
         mentions k text = false)
  /\ (forall cat, detectedCategory text = Some cat ->
       In cat ["Food"; "Transport"; "Shopping"; "Bills"; "Entertainment"; "Health"]
       /\ exists kws k, In (cat, kws) categoryKeywords /\ In k kws
                        /\ mentions k text = true).
Proof.
  unfold detectedCategory, mentions. split.
  - rewrite firstCategory_none. split.
    + intros H cat kws k Hin Hk.
      apply (proj1 (some_false_iff kws _) (H cat kws Hin) k Hk).
    + intros H cat kws Hin. apply some_false_iff. intros k Hk.
      now apply (H cat kws k).
  - intros cat H. apply firstCategory_some in H as [kws [Hin Hs]].
    split.
    + change (In cat (map fst categoryKeywords)).
      apply (in_map fst) in Hin. exact Hin.
    + apply some_iff in Hs as [k [Hk Hinc]]. now exists kws, k.
Qed.

(** X22: the categories are tried in the order of the table and the
    first hit wins: when no keyword of the entries before [cat] occurs
    and a keyword of [cat] does, the category is [cat], whatever keywords
    of later entries the text also holds and wherever they stand. *)
Theorem category_priority
    (pre post : list (string * list string)) (cat : string)
    (kws : list string) (k text : string) :
  categoryKeywords = (pre ++ (cat, kws) :: post)%list ->
  (forall c ks k', In (c, ks) pre -> In k' ks -> mentions k' text = false) ->
  In k kws -> mentions k text = true ->
  detectedCategory text = Some cat.
Proof.
  intros Htab Hpre Hk Hm. unfold detectedCategory. rewrite Htab.
  apply firstCategory_priority.
  - intros c ks Hin. apply some_false_iff. intros k' Hk'.
    now apply (Hpre c ks k').
  - apply some_iff. now exists k.
Qed.

Lemma category_priority_witness :
  mentions "uber" "Uber ride to dinner" = true
  /\ detectedCategory "Uber ride to dinner" = Some "Food".
Proof.
  split; [vm_compute; reflexivity |].
  apply (category_priority [] (tl categoryKeywords) "Food"
           (match categoryKeywords with
            | (_, ks) :: _ => ks
            | [] => []
            end) "dinner" "Uber ride to dinner").
  - reflexivity.
  - intros c ks k' [].
  - vm_compute. tauto.
  - vm_compute. reflexivity.
Defined.

(** X23: no keyword of the table is shadowed: a message that consists of
    one keyword alone is given the category that keyword is listed
    under. *)
Theorem keyword_selects_own_category (cat : string) (kws : list string) (k : string) :
  In (cat, kws) categoryKeywords -> In k kws ->
  detectedCategory k = Some cat.
Proof.
  intros Hin Hk.
  assert (Hall : forallb
            (fun e : string * list string =>
               forallb (fun k' => match detectedCategory k' with
                                  | Some c => String.eqb c (fst e)
                                  | None => false
                                  end) (snd e))
            categoryKeywords = true) by (vm_compute; reflexivity).
  pose proof (proj1 (forallb_forall _ _) Hall (cat, kws) Hin) as He.
  cbn [fst snd] in He.
  pose proof (proj1 (forallb_forall _ _) He k Hk) as Hkk.
  cbv beta in Hkk.
  destruct (detectedCategory k) as [c|]; [| discriminate].
  apply String.eqb_eq in Hkk. now subst.
Qed.

Lemma keyword_selects_own_category_witness :
  detectedCategory "entertainment" = Some "Entertainment".
Proof.
  apply (keyword_selects_own_category "Entertainment"
           ["movie"; "netflix"; "games"; "concert"; "spotify";
            "entertainment"; "fun"]).
  - vm_compute. tauto.
  - vm_compute. tauto.
Defined.

(** X24: the amount pattern [/\d+(\.\d+)?/] finds nothing exactly when
    the message holds no decimal digit; the amount is then left
    undefined. *)
Theorem amount_missing_iff_no_digit (text : string) :
  amountMatch text = None <-> testDigits text = false.
Proof.
  induction text as [|c t IH]; [now split |].
  cbn [amountMatch testDigits].
  destruct (matchAmountAt (String c t)) as [m|] eqn:E.
  - split; [discriminate |]. intros H. apply orb_false_iff in H as [Hc _].
    assert (Hn : matchAmountAt (String c t) = None)
      by (apply matchAmountAt_none; exact Hc).
    congruence.
  - apply matchAmountAt_none in E. simpl in E. rewrite E. exact IH.
Qed.

(** X25: a whole number is read up to the first character that does not
    continue it.  After a prefix without digits, a run of digits followed
    by anything but a digit or a dot-and-digit is the lexeme; a thousands
    separator therefore cuts the number short. *)
Theorem amount_lexeme_whole (pre ds rest : string) :
  testDigits pre = false -> allDigits ds = true -> endsNumber rest = true ->
  amountMatch (pre ++ ds ++ rest) = Some ds.
Proof.
  intros Hpre Hds Hend. rewrite amountMatch_skip by exact Hpre.
  apply amountMatch_head. unfold matchAmountAt.
  unfold endsNumber in Hend. apply andb_true_iff in Hend as [Hh Hdot].
  apply negb_true_iff in Hh. apply negb_true_iff in Hdot.
  destruct (takeDigits_run ds rest Hds Hh) as [-> ->].
  pose proof (allDigits_nonempty ds Hds) as Hne.
  destruct ds as [|c ds]; [congruence |].
  destruct rest as [|r rest]; [reflexivity |].
  destruct (Ascii.eqb r ".") eqn:Er; [| reflexivity].
  simpl in Hdot.
  destruct rest as [|r2 rest]; [reflexivity |].
  simpl in Hdot. simpl. now rewrite Hdot.
Qed.

Lemma amount_lexeme_whole_witness :
  amountMatch "Save 1,200 rent" = Some "1".
Proof.
  apply (amount_lexeme_whole "Save " "1" ",200 rent"); reflexivity.
Defined.

(** X26: a decimal number is read with its whole fraction: after a
    prefix without digits, a run of digits, a dot and a second run of
    digits that no further digit follows make up the lexeme. *)
Theorem amount_lexeme_decimal (pre ds fs rest : string) :
  testDigits pre = false -> allDigits ds = true -> allDigits fs = true ->
  headDigit rest = false ->
  amountMatch (pre ++ ds ++ "." ++ fs ++ rest) = Some (ds ++ "." ++ fs).
Proof.
  intros Hpre Hds Hfs Hrest. rewrite amountMatch_skip by exact Hpre.
  apply amountMatch_head. unfold matchAmountAt.
  destruct (takeDigits_run ds ("." ++ fs ++ rest) Hds eq_refl) as [-> ->].
  pose proof (allDigits_nonempty ds Hds) as Hne.
  destruct ds as [|c ds]; [congruence |].
  cbn [append]. cbn [Ascii.eqb Bool.eqb].
  destruct (takeDigits_run fs rest Hfs Hrest) as [-> _].
  pose proof (allDigits_nonempty fs Hfs) as Hnf.
  destruct fs as [|f fs]; [congruence | reflexivity].
Qed.

Lemma amount_lexeme_decimal_witness :
  amountMatch "Coffee 15.50 today" = Some "15.50".
Proof.
  apply (amount_lexeme_decimal "Coffee " "15" "50" " today"); reflexivity.
Defined.

End ExpenseInputProperties.
